(** * The chaosmonkey client library, embedded and verified

    A shallow embedding of [lib/chaosmonkey.go] (the Chaos Monkey REST
    client) and of the SimpleDB helper of the [aws] package, followed by
    the properties the specification states about them.

    Conventions of the embedding:
    - a Go [int64] is a [Z]; where the code can leave the 64-bit range
      the wrap-around is written out with [wrap64];
    - a Go [string] is a [string]; [error] values are kept as the text
      [Error()] returns, and a [nil] error is [None];
    - a pointer to a [Config] is a location of a heap ([gmap]); a location
      the heap does not bind plays the part of [nil], and dereferencing
      it panics;
    - code that returns [(value, error)] returns a [result];
    - the HTTP exchange, the JSON decoder and the process environment
      are the platform the library runs on ([Platform]). *)

From Stdlib Require Import ZArith String Ascii List Lia DecimalString.
From stdpp Require Import base option gmap strings list.

Open Scope string_scope.
Open Scope list_scope.
Open Scope Z_scope.

(** ** Go prelude *)

(** Go's [error] interface, kept as the text of the error. *)
Definition error := string.

(** A Go [(T, error)] pair of which exactly one side is meaningful. *)
Inductive result (A : Type) : Type :=
| Ok (a : A)
| Err (e : error).
Arguments Ok {A} a.
Arguments Err {A} e.

(** Two's complement wrap-around of 64-bit signed arithmetic. *)
Definition wrap64 (z : Z) : Z := (z + 2 ^ 63) mod 2 ^ 64 - 2 ^ 63.

(** The range of [int64]. *)
Definition int64_range (z : Z) : Prop := - 2 ^ 63 <= z < 2 ^ 63.

(** [strings.HasPrefix(s, prefix)]. *)
Definition strings_HasPrefix (s pre : string) : bool := String.prefix pre s.

(** The verb [%d] of package [fmt] on an integer. *)
Definition fmt_d (z : Z) : string := NilZero.string_of_int (Z.to_int z).

(** The double quote character. *)
Definition dquote : string := String (ascii_of_nat 34) EmptyString.

(** ** Package time (the part the client uses) *)

Module time.

Inductive Location : Type := UTCLoc | Local.

(** An instant: whole seconds since the Unix epoch, the nanoseconds
    within that second (0 <= nsec < 10^9), and the location it is
    presented in. *)
Record Time : Type := mkTime { sec : Z; nsec : Z; loc : Location }.

(** [time.Unix(sec, nsec)]: the local Time of the given Unix time; an
    [nsec] outside [0, 999999999] is carried into the seconds. The
    client calls it with [nsec = 0] only, where the seconds are kept as
    they are. *)
Definition Unix (s n : Z) : Time :=
  if (n <? 0) || (1000000000 <=? n) then
    let q := n ÷ 1000000000 in
    let s' := s + q in
    let n' := n - q * 1000000000 in
    if n' <? 0 then mkTime (s' - 1) (n' + 1000000000) Local
    else mkTime s' n' Local
  else mkTime s n Local.

(** [t.UTC()]: the same instant, location set to UTC. *)
Definition UTC (t : Time) : Time := mkTime (sec t) (nsec t) UTCLoc.

(** [t.Unix()]: seconds elapsed since the epoch; the result does not
    depend on the location. *)
Definition Time_Unix (t : Time) : Z := sec t.

(** The instant in milliseconds since the epoch ([t.UnixMilli()]). *)
Definition Time_UnixMilli (t : Time) : Z := sec t * 1000 + nsec t / 1000000.

End time.

(** ** Package chaosmonkey: data *)

(** Modelled from the spec: the declaration of the type [Strategy] is
    not part of the sources at hand; the conversions [Strategy(x)] and
    [string(s)] of chaosmonkey.go and the spec ("string-backed") make it
    a string. *)
Definition Strategy : Type := string.

Definition StrategyShutdownInstance : Strategy := "ShutdownInstance".
Definition StrategyBlockAllNetworkTraffic : Strategy := "BlockAllNetworkTraffic".
Definition StrategyDetachVolumes : Strategy := "DetachVolumes".
Definition StrategyBurnCPU : Strategy := "BurnCpu".
Definition StrategyBurnIO : Strategy := "BurnIo".
Definition StrategyKillProcesses : Strategy := "KillProcesses".
Definition StrategyNullRoute : Strategy := "NullRoute".
Definition StrategyFailEC2 : Strategy := "FailEc2".
Definition StrategyFailDNS : Strategy := "FailDns".
Definition StrategyFailDynamoDB : Strategy := "FailDynamoDb".
Definition StrategyFailS3 : Strategy := "FailS3".
Definition StrategyFillDisk : Strategy := "FillDisk".
Definition StrategyNetworkCorruption : Strategy := "NetworkCorruption".
Definition StrategyNetworkLatency : Strategy := "NetworkLatency".
Definition StrategyNetworkLoss : Strategy := "NetworkLoss".

Definition APIPath : string := "/simianarmy/api/v1/chaos".

(** A request sent to the API. *)
Module APIRequest.
Record t : Type := mk {
  ChaosType : string;
  EventType : string;
  GroupName : string;
  GroupType : string;
  Region : string
}.
End APIRequest.

(** A response returned by the API. *)
Module APIResponse.
Record t : Type := mk {
  ChaosType : string;
  EventID : string;
  EventTime : Z;
  EventType : string;
  GroupName : string;
  GroupType : string;
  MonkeyType : string;
  Region : string;
  Message : string
}.
End APIResponse.

(** The termination of an EC2 instance by Chaos Monkey. *)
Module Event.
Record t : Type := mk {
  InstanceID : string;
  AutoScalingGroupName : string;
  Region : string;
  Strategy : Strategy;
  TriggeredAt : time.Time
}.
End Event.

(** [resp.ToEvent()]. Go's [/] on integers truncates toward zero, which
    is [Z.quot] (written [÷]). *)
Definition ToEvent (resp : APIResponse.t) : Event.t :=
  {| Event.InstanceID := APIResponse.EventID resp;
     Event.AutoScalingGroupName := APIResponse.GroupName resp;
     Event.Region := APIResponse.Region resp;
     Event.Strategy := APIResponse.ChaosType resp;
     Event.TriggeredAt :=
       time.UTC (time.Unix (APIResponse.EventTime resp ÷ 1000) 0) |}.

(** ** Package unicode/utf8: how a string splits into runes *)

Module utf8.

(** The bytes of U+FFFD, the rune [utf8.RuneError]. *)
Definition RuneError : string :=
  String (ascii_of_nat 239) (String (ascii_of_nat 191)
    (String (ascii_of_nat 189) EmptyString)).

(** The table [first] for a byte that is not ASCII: the length of the
    sequence a leading byte opens and the range its second byte must lie
    in; [None] for a byte that opens no sequence (0x80-0xC1, 0xF5-0xFF). *)
Definition first (x : N) : option (nat * N * N) :=
  if (x <? 0xC2)%N then None
  else if (x <=? 0xDF)%N then Some (2%nat, 0x80%N, 0xBF%N)
  else if (x =? 0xE0)%N then Some (3%nat, 0xA0%N, 0xBF%N)
  else if (x <=? 0xEC)%N then Some (3%nat, 0x80%N, 0xBF%N)
  else if (x =? 0xED)%N then Some (3%nat, 0x80%N, 0x9F%N)
  else if (x <=? 0xEF)%N then Some (3%nat, 0x80%N, 0xBF%N)
  else if (x =? 0xF0)%N then Some (4%nat, 0x90%N, 0xBF%N)
  else if (x <=? 0xF3)%N then Some (4%nat, 0x80%N, 0xBF%N)
  else if (x =? 0xF4)%N then Some (4%nat, 0x80%N, 0x8F%N)
  else None.

Definition between (lo hi : N) (a : ascii) : bool :=
  ((lo <=? N_of_ascii a) && (N_of_ascii a <=? hi))%N.

(** [utf8.DecodeRuneInString(s)], as far as its callers here look at
    it: the width of the first rune when [s] starts with a well-formed
    sequence, [None] when it returns [(RuneError, 1)] (or when [s] is
    empty). *)
Definition runeSize (s : string) : option nat :=
  match s with
  | EmptyString => None
  | String s0 t =>
    if (N_of_ascii s0 <? 0x80)%N then Some 1%nat
    else
      match first (N_of_ascii s0) with
      | None => None
      | Some (sz, lo, hi) =>
        if (String.length s <? sz)%nat then None
        else
          match t with
          | EmptyString => None
          | String s1 t1 =>
            if negb (between lo hi s1) then None
            else if (sz <=? 2)%nat then Some 2%nat
            else
              match t1 with
              | EmptyString => None
              | String s2 t2 =>
                if negb (between 0x80 0xBF s2) then None
                else if (sz <=? 3)%nat then Some 3%nat
                else
                  match t2 with
                  | EmptyString => None
                  | String s3 _ =>
                    if negb (between 0x80 0xBF s3) then None else Some 4%nat
                  end
              end
          end
      end
  end.

(** The loop of [utf8.ValidString]: [keep] bytes of a rune already
    accepted are still to be passed over. *)
Fixpoint validFrom (s : string) (keep : nat) : bool :=
  match s with
  | EmptyString => true
  | String _ rest =>
    match keep with
    | S k => validFrom rest k
    | O =>
      match runeSize s with
      | Some n => validFrom rest (n - 1)
      | None => false
      end
    end
  end.

(** [utf8.ValidString(s)]. *)
Definition ValidString (s : string) : bool := validFrom s 0.

End utf8.

(** ** Package encoding/json, as far as the client's structs need it *)

(** A JSON object whose members are strings, members in order. *)
Definition json_Object : Type := list (string * string).

(** The loop of the encoder over a string: a well-formed rune is
    written out (escaped or not, it denotes itself) and each byte that
    starts no well-formed rune is written as U+FFFD; [keep] bytes of
    a rune already accepted are still to be copied. *)
Fixpoint appendString (s : string) (keep : nat) : string :=
  match s with
  | EmptyString => EmptyString
  | String b rest =>
    match keep with
    | S k => String b (appendString rest k)
    | O =>
      match utf8.runeSize s with
      | Some n => String b (appendString rest (n - 1))
      | None => utf8.RuneError +:+ appendString rest 0
      end
    end
  end.

(** The text a Go string denotes once the encoder has written it. *)
Definition json_string (s : string) : string := appendString s 0.

(** A member tagged [omitempty] is left out when its value is empty. *)
Definition omitempty (key v : string) : json_Object :=
  if decide (v = "") then [] else [(key, json_string v)].

(** [json.Marshal] of an [APIRequest], following the struct tags; the
    document is kept as the object it denotes: the members in the order
    of the fields, each string as the encoder leaves it. Marshalling a
    struct of strings has no failure. *)
Definition json_Marshal (r : APIRequest.t) : result json_Object :=
  Ok (omitempty "chaosType" (APIRequest.ChaosType r)
      ++ [("eventType", json_string (APIRequest.EventType r));
          ("groupName", json_string (APIRequest.GroupName r));
          ("groupType", json_string (APIRequest.GroupType r))]
      ++ omitempty "region" (APIRequest.Region r)).

(** The value of a member of an object, if the object has it. *)
Fixpoint member (key : string) (o : json_Object) : option string :=
  match o with
  | [] => None
  | (k, v) :: o' => if decide (k = key) then Some v else member key o'
  end.

(** ** Package encoding/base64: the standard encoding *)

Module base64.

Definition alphabet : string :=
  "ABCDEFGHIJKLMNOPQRSTUVWXYZabcdefghijklmnopqrstuvwxyz0123456789+/".

(** The character of a 6-bit value. *)
Definition digit (n : N) : ascii :=
  match String.get (N.to_nat n) alphabet with
  | Some a => a
  | None => "="%char
  end.

Definition str1 (a : ascii) : string := String a EmptyString.

Fixpoint encode (fuel : nat) (s : string) : string :=
  match fuel with
  | O => ""
  | S fuel' =>
    match s with
    | EmptyString => ""
    | String a EmptyString =>
      let x := N_of_ascii a in
      str1 (digit (N.shiftr x 2))
      +:+ str1 (digit (N.shiftl (N.land x 3) 4)) +:+ "=="
    | String a (String b EmptyString) =>
      let x := N_of_ascii a in
      let y := N_of_ascii b in
      str1 (digit (N.shiftr x 2))
      +:+ str1 (digit (N.lor (N.shiftl (N.land x 3) 4) (N.shiftr y 4)))
      +:+ str1 (digit (N.shiftl (N.land y 15) 2)) +:+ "="
    | String a (String b (String c rest)) =>
      let x := N_of_ascii a in
      let y := N_of_ascii b in
      let z := N_of_ascii c in
      str1 (digit (N.shiftr x 2))
      +:+ str1 (digit (N.lor (N.shiftl (N.land x 3) 4) (N.shiftr y 4)))
      +:+ str1 (digit (N.lor (N.shiftl (N.land y 15) 2) (N.shiftr z 6)))
      +:+ str1 (digit (N.land z 63))
      +:+ encode fuel' rest
    end
  end.

(** [base64.StdEncoding.EncodeToString]. *)
Definition EncodeToString (s : string) : string := encode (S (String.length s)) s.

End base64.

(** ** Package net/http, as far as the client uses it *)

Module http.

(** Header fields in the order they were added. *)
Definition Header : Type := list (string * string).

(** [h.Add(key, value)]. *)
Definition Header_Add (key v : string) (h : Header) : Header := h ++ [(key, v)].

(** [h.Set(key, value)]: replaces what the key held. *)
Definition Header_Set (key v : string) (h : Header) : Header :=
  filter (λ e, e.1 ≠ key) h ++ [(key, v)].

(** The values a header holds under a key. *)
Definition Header_Values (key : string) (h : Header) : list string :=
  (filter (λ e, e.1 = key) h).*2.

Record Request : Type := mkRequest {
  Method : string;
  URL : string;
  Body : option json_Object;
  Hdr : Header
}.

Record Response : Type := mkResponse {
  Status : string;
  StatusCode : Z;
  RespBody : string
}.

(** An [http.Client], seen from its only method used here: [Do]
    answers a request with a response or fails before any status is
    available. *)
Record Client : Type := mkClient { Do : Request → result Response }.

Definition StatusOK : Z := 200.

(** [req.SetBasicAuth(username, password)]. *)
Definition SetBasicAuth (username password : string) (req : Request) : Request :=
  mkRequest (Method req) (URL req) (Body req)
    (Header_Set "Authorization"
       ("Basic " +:+ base64.EncodeToString (username +:+ ":" +:+ password))
       (Hdr req)).

(** [req.Header.Add(key, value)]. *)
Definition AddHeader (key v : string) (req : Request) : Request :=
  mkRequest (Method req) (URL req) (Body req) (Header_Add key v (Hdr req)).

End http.

(** ** Package chaosmonkey: configuration and client *)

(** Heap locations; a [*Config] is a location. *)
Definition loc : Type := positive.

(** The configuration of a client; [HTTPClient] is a pointer, [None]
    when [nil]. *)
Module Config.
Record t : Type := mk {
  Endpoint : string;
  Region : string;
  Username : string;
  Password : string;
  UserAgent : string;
  HTTPClient : option http.Client
}.

Definition set_Endpoint (v : string) (c : t) : t :=
  mk v (Region c) (Username c) (Password c) (UserAgent c) (HTTPClient c).
Definition set_Username (v : string) (c : t) : t :=
  mk (Endpoint c) (Region c) v (Password c) (UserAgent c) (HTTPClient c).
Definition set_Password (v : string) (c : t) : t :=
  mk (Endpoint c) (Region c) (Username c) v (UserAgent c) (HTTPClient c).
Definition set_UserAgent (v : string) (c : t) : t :=
  mk (Endpoint c) (Region c) (Username c) (Password c) v (HTTPClient c).
Definition set_HTTPClient (v : option http.Client) (c : t) : t :=
  mk (Endpoint c) (Region c) (Username c) (Password c) (UserAgent c) v.
End Config.

(** The client: it holds the pointer it was given. *)
Module Client.
Record t : Type := mk { config : loc }.
End Client.

(** What the library takes from its surroundings: the environment of
    the process, [http.DefaultClient], the checks [http.NewRequest]
    makes on a method and a URL ([Some] error when it rejects them), and
    the JSON decoder at the two types the client decodes into. *)
Class Platform : Type := {
  environ : gmap string string;
  http_DefaultClient : http.Client;
  http_NewRequest_check : string → string → option error;
  json_Decode_APIResponse : string → result APIResponse.t;
  json_Decode_APIResponses : string → result (list APIResponse.t)
}.

(** The state the client's code runs in: the heap of configurations
    and the requests handed to a transport so far, oldest first. *)
Record World : Type := mkWorld {
  heap : gmap loc Config.t;
  sent : list http.Request
}.

(** Computations over the world; [None] is a panic. *)
Definition M (A : Type) : Type := World → option (A * World).

Definition ret {A} (a : A) : M A := λ w, Some (a, w).

Definition bind {A B} (m : M A) (k : A → M B) : M B :=
  λ w, match m w with
       | Some (a, w') => k a w'
       | None => None
       end.

Notation "'do' x <- m ; k" := (bind m (λ x, k))
  (at level 10, x name, m at level 100, k at level 200).
Notation "m ;; k" := (bind m (λ _, k))
  (at level 100, k at level 200, right associativity).

(** [p.f]: reading a field through a pointer. *)
Definition get {B} (p : loc) (f : Config.t → B) : M B :=
  λ w, match heap w !! p with
       | Some c => Some (f c, w)
       | None => None
       end.

(** [p.f = v]: writing a field through a pointer. *)
Definition set (p : loc) (upd : Config.t → Config.t) : M unit :=
  λ w, match heap w !! p with
       | Some c => Some (tt, mkWorld (<[p := upd c]> (heap w)) (sent w))
       | None => None
       end.

(** [if b { m }]. *)
Definition when (b : bool) (m : M unit) : M unit := if b then m else ret tt.

(** [client.Do(req)] on a client pointer: the request is handed to the
    transport; a nil client panics. *)
Definition Do (cl : option http.Client) (req : http.Request) : M (result http.Response) :=
  λ w, match cl with
       | Some cl => Some (http.Do cl req, mkWorld (heap w) (sent w ++ [req]))
       | None => None
       end.

Section chaosmonkey.
Context {P : Platform}.

(** [os.Getenv]: the empty string for a variable that is not set. *)
Definition os_Getenv (key : string) : string := default "" (environ !! key).

(** [http.NewRequest(method, url, body)]. *)
Definition http_NewRequest (method url : string) (body : option json_Object)
  : result http.Request :=
  match http_NewRequest_check method url with
  | Some e => Err e
  | None => Ok (http.mkRequest method url body [])
  end.

(** [DefaultConfig()]. The configuration it allocates is reachable from
    its caller only, so it is returned as a value. *)
Definition DefaultConfig : Config.t :=
  let c := Config.mk "http://127.0.0.1:8080" "" "" "" "chaosmonkey Go library"
             (Some http_DefaultClient) in
  let c := let v := os_Getenv "CHAOSMONKEY_ENDPOINT" in
           if bool_decide (v ≠ "") then Config.set_Endpoint v c else c in
  let c := let v := os_Getenv "CHAOSMONKEY_USERNAME" in
           if bool_decide (v ≠ "") then Config.set_Username v c else c in
  let c := let v := os_Getenv "CHAOSMONKEY_PASSWORD" in
           if bool_decide (v ≠ "") then Config.set_Password v c else c in
  c.

(** [NewClient(c)]: the defaults are written through the pointer [c]. *)
Definition NewClient (c : loc) : M (Client.t * option error) :=
  let defConfig := DefaultConfig in
  do e <- get c Config.Endpoint;
  when (bool_decide (e = ""))
    (set c (Config.set_Endpoint (Config.Endpoint defConfig)));;
  do e <- get c Config.Endpoint;
  when (negb (strings_HasPrefix e "http"))
    (set c (Config.set_Endpoint ("http://" +:+ e)));;
  do u <- get c Config.Username;
  when (bool_decide (u = ""))
    (set c (Config.set_Username (Config.Username defConfig)));;
  do p <- get c Config.Password;
  when (bool_decide (p = ""))
    (set c (Config.set_Password (Config.Password defConfig)));;
  do a <- get c Config.UserAgent;
  when (bool_decide (a = ""))
    (set c (Config.set_UserAgent (Config.UserAgent defConfig)));;
  do h <- get c Config.HTTPClient;
  when (bool_decide (h = None))
    (set c (Config.set_HTTPClient (Config.HTTPClient defConfig)));;
  ret (Client.mk c, None).

(** [decodeError(resp)]; the error it returns is never nil. *)
Definition decodeError (resp : http.Response) : error :=
  match json_Decode_APIResponse (http.RespBody resp) with
  | Ok r =>
    if bool_decide (APIResponse.Message r ≠ "") then APIResponse.Message r
    else "HTTP error: " +:+ http.Status resp
  | Err _ => "HTTP error: " +:+ http.Status resp
  end.

(** The headers [sendRequest] puts on a request it has built. *)
Definition setHeaders (username password userAgent : string) (req : http.Request)
  : http.Request :=
  let req := if bool_decide (username ≠ "") && bool_decide (password ≠ "")
             then http.SetBasicAuth username password req else req in
  http.AddHeader "User-Agent" userAgent req.

(** [c.sendRequest(method, url, body, out)]; [out] is the decoder at
    the type of the target the caller passes, and what was decoded is
    returned. The deferred [resp.Body.Close()] releases the connection
    and has no part in the result. *)
Definition sendRequest {A} (c : Client.t) (method url : string)
    (body : option json_Object) (out : string → result A) : M (result A) :=
  match http_NewRequest method url body with
  | Err e => ret (Err e)
  | Ok req =>
    do username <- get (Client.config c) Config.Username;
    do password <- get (Client.config c) Config.Password;
    do userAgent <- get (Client.config c) Config.UserAgent;
    let req := setHeaders username password userAgent req in
    do client <- get (Client.config c) Config.HTTPClient;
    do r <- Do client req;
    match r with
    | Err e => ret (Err e)
    | Ok resp =>
      if bool_decide (http.StatusCode resp ≠ http.StatusOK)
      then ret (Err (decodeError resp))
      else ret (out (http.RespBody resp))
    end
  end.

(** [c.TriggerEvent(group, strategy)]. *)
Definition TriggerEvent (c : Client.t) (group : string) (strategy : Strategy)
  : M (result Event.t) :=
  do endpoint <- get (Client.config c) Config.Endpoint;
  let url := endpoint +:+ APIPath in
  do region <- get (Client.config c) Config.Region;
  match json_Marshal
          (APIRequest.mk strategy "CHAOS_TERMINATION" group "ASG" region) with
  | Err e => ret (Err e)
  | Ok body =>
    do r <- sendRequest c "POST" url (Some body) json_Decode_APIResponse;
    match r with
    | Err e => ret (Err e)
    | Ok resp => ret (Ok (ToEvent resp))
    end
  end.

(** [c.events(since)]. *)
Definition events (c : Client.t) (since : Z) : M (result (list Event.t)) :=
  do endpoint <- get (Client.config c) Config.Endpoint;
  let url := endpoint +:+ APIPath +:+ "?since=" +:+ fmt_d since in
  do r <- sendRequest c "GET" url None json_Decode_APIResponses;
  match r with
  | Err e => ret (Err e)
  | Ok resp => ret (Ok (foldl (λ events r, events ++ [ToEvent r]) [] resp))
  end.

(** [c.Events()]. *)
Definition Events (c : Client.t) : M (result (list Event.t)) := events c 0.

(** [c.EventsSince(t)]; the product is taken in [int64]. *)
Definition EventsSince (c : Client.t) (t : time.Time) : M (result (list Event.t)) :=
  events c (wrap64 (time.Time_Unix (time.UTC t) * 1000)).

End chaosmonkey.

(** ** Package aws: deleting a SimpleDB domain *)

Module aws.

(** [aws.StringValue(p)]: the string a pointer holds, empty for nil. *)
Definition StringValue (p : option string) : string := default "" p.

(** One page of a domain listing; the names are pointers to strings. *)
Record ListDomainsOutput : Type := mkPage { DomainNames : list (option string) }.

(** The SimpleDB service of a region, as the code meets it: the pages a
    listing delivers, the error (if any) that ends the listing after
    these pages, and what [DeleteDomain] answers for a domain name. *)
Record SimpleDB : Type := mkSimpleDB {
  pages : list ListDomainsOutput;
  listErr : option error;
  deleteErr : string → option error
}.

(** What the package takes from its surroundings: the creation of a
    session for a region together with the service client built on it,
    and the verb [%q] of package [fmt] on a string. *)
Class SDK : Type := {
  session_NewSession : string → result SimpleDB;
  fmt_q : string → string
}.

(** The paging loop of the SDK: the callback gets each page and whether
    it is the last one, threads its captured variables [S], and stops
    the listing by returning [false]; the error of a failed fetch is
    returned once the pages before it have been delivered. *)
Fixpoint eachPage {S} (ps : list ListDomainsOutput) (err : option error)
    (fn : ListDomainsOutput → bool → S → S * bool) (s : S) : S * option error :=
  match ps with
  | [] => (s, err)
  | p :: rest =>
    let last := bool_decide (rest = []) && bool_decide (err = None) in
    let '(s', continue) := fn p last s in
    if continue then eachPage rest err fn s' else (s', None)
  end.

(** [svc.ListDomainsPages(nil, fn)]. *)
Definition ListDomainsPages {S} (svc : SimpleDB)
    (fn : ListDomainsOutput → bool → S → S * bool) (s : S) : S * option error :=
  eachPage (pages svc) (listErr svc) fn s.

Section aws.
Context {K : SDK}.

(** [newSession(region)] followed by [simpledb.New]; [session.Must]
    panics ([None]) when the session cannot be created. *)
Definition newSession (region : string) : option SimpleDB :=
  match session_NewSession region with
  | Ok svc => Some svc
  | Err _ => None
  end.

(** [DeleteSimpleDBDomain(domainName, region)]: the error returned
    ([None] for nil) and the domain names [DeleteDomain] was called
    with, in order. *)
Definition DeleteSimpleDBDomain (domainName region : string)
  : option (option error * list string) :=
  let domainExists := false in
  match newSession region with
  | None => None
  | Some svc =>
    let '(domainExists, err) :=
      ListDomainsPages svc
        (λ out last domainExists,
           (foldl (λ domainExists n,
                     if bool_decide (StringValue n = domainName) then true
                     else domainExists)
                  domainExists (DomainNames out),
            negb last))
        domainExists in
    match err with
    | Some e => Some (Some e, [])
    | None =>
      if negb domainExists
      then Some (Some ("SimpleDB domain " +:+ fmt_q domainName +:+ " does not exist"), [])
      else Some (deleteErr svc domainName, [domainName])
    end
  end.

End aws.

(** The domain names a listing holds, as the code reads them. *)
Definition listed (svc : SimpleDB) : list string :=
  concat (map (λ p, map StringValue (DomainNames p)) (pages svc)).

(** *** Listing the auto scaling groups *)

(** [aws.Int64Value(p)]: the integer a pointer holds, zero for nil. *)
Definition Int64Value (p : option Z) : Z := default 0 p.

(** The shapes of the SDK's autoscaling package the code reads. The
    slices hold pointers, which the SDK never leaves nil; the scalar
    members are pointers read through [StringValue] and [Int64Value]. *)
Module autoscaling.

Record Instance : Type := mkInstance { LifecycleState : option string }.

Record Group : Type := mkGroup {
  AutoScalingGroupName : option string;
  Instances : list Instance;
  DesiredCapacity : option Z;
  MinSize : option Z;
  MaxSize : option Z
}.

Record DescribeAutoScalingGroupsOutput : Type :=
  mkOutput { AutoScalingGroups : list Group }.

(** The service of a region: the pages a listing delivers and the
    error (if any) that ends the listing after them. *)
Record Service : Type := mkService {
  pages : list DescribeAutoScalingGroupsOutput;
  describeErr : option error
}.

End autoscaling.

(** An AWS auto scaling group, as the package reports it. *)
Module AutoScalingGroup.
Record t : Type := mk {
  Name : string;
  InstancesInService : Z;
  DesiredCapacity : Z;
  MinSize : Z;
  MaxSize : Z
}.
End AutoScalingGroup.

(** What the listing takes from its surroundings: the session of a
    region with the autoscaling client built on it, the SDK's constant
    [autoscaling.LifecycleStateInService], and the conversion [int(x)]
    of an [int64] at the width of the platform. *)
Class AutoScalingSDK : Type := {
  autoscaling_NewSession : string → result autoscaling.Service;
  LifecycleStateInService : string;
  int_of_int64 : Z → Z
}.

(** The paging loop of the SDK at any type of page; see [eachPage]. *)
Fixpoint eachPageOf {Page S} (ps : list Page) (err : option error)
    (fn : Page → bool → S → S * bool) (s : S) : S * option error :=
  match ps with
  | [] => (s, err)
  | p :: rest =>
    let last := bool_decide (rest = []) && bool_decide (err = None) in
    let '(s', continue) := fn p last s in
    if continue then eachPageOf rest err fn s' else (s', None)
  end.

(** [svc.DescribeAutoScalingGroupsPages(nil, fn)]. *)
Definition DescribeAutoScalingGroupsPages {S} (svc : autoscaling.Service)
    (fn : autoscaling.DescribeAutoScalingGroupsOutput → bool → S → S * bool) (s : S)
  : S * option error :=
  eachPageOf (autoscaling.pages svc) (autoscaling.describeErr svc) fn s.

Section groups.
Context {G : AutoScalingSDK}.

(** [AutoScalingGroups(region)]; [None] is the panic of [session.Must].
    The counter [inService] is bounded by the length of a slice, so it
    stays within [int]. *)
Definition AutoScalingGroups (region : string)
  : option (result (list AutoScalingGroup.t)) :=
  let groups := [] in
  match autoscaling_NewSession region with
  | Err _ => None
  | Ok svc =>
    let '(groups, err) :=
      DescribeAutoScalingGroupsPages svc
        (λ out last groups,
           (foldl (λ groups g,
                     let inService :=
                       foldl (λ inService i,
                                if bool_decide
                                     (StringValue (autoscaling.LifecycleState i)
                                      = LifecycleStateInService)
                                then inService + 1 else inService)
                             0 (autoscaling.Instances g) in
                     groups ++
                     [AutoScalingGroup.mk
                        (StringValue (autoscaling.AutoScalingGroupName g))
                        inService
                        (int_of_int64 (Int64Value (autoscaling.DesiredCapacity g)))
                        (int_of_int64 (Int64Value (autoscaling.MinSize g)))
                        (int_of_int64 (Int64Value (autoscaling.MaxSize g)))])
                  groups (autoscaling.AutoScalingGroups out),
            negb last))
        groups in
    match err with
    | Some e => Some (Err e)
    | None => Some (Ok groups)
    end
  end.

(** What the listing reports of one group. *)
Definition summary (g : autoscaling.Group) : AutoScalingGroup.t :=
  AutoScalingGroup.mk
    (StringValue (autoscaling.AutoScalingGroupName g))
    (Z.of_nat (length (filter (λ i, StringValue (autoscaling.LifecycleState i)
                                     = LifecycleStateInService)
                              (autoscaling.Instances g))))
    (int_of_int64 (Int64Value (autoscaling.DesiredCapacity g)))
    (int_of_int64 (Int64Value (autoscaling.MinSize g)))
    (int_of_int64 (Int64Value (autoscaling.MaxSize g))).

End groups.

(** The groups a listing holds, page after page. *)
Definition described (svc : autoscaling.Service) : list autoscaling.Group :=
  concat (map autoscaling.AutoScalingGroups (autoscaling.pages svc)).

End aws.

(** ** What resolution amounts to *)

(** The configuration [NewClient] leaves behind the pointer, as a
    function of the defaults and of the configuration it found there. *)
Definition resolve (def cfg : Config.t) : Config.t :=
  let e := if bool_decide (Config.Endpoint cfg = "") then Config.Endpoint def
           else Config.Endpoint cfg in
  Config.mk
    (if strings_HasPrefix e "http" then e else "http://" +:+ e)
    (Config.Region cfg)
    (if bool_decide (Config.Username cfg = "") then Config.Username def
     else Config.Username cfg)
    (if bool_decide (Config.Password cfg = "") then Config.Password def
     else Config.Password cfg)
    (if bool_decide (Config.UserAgent cfg = "") then Config.UserAgent def
     else Config.UserAgent cfg)
    (if bool_decide (Config.HTTPClient cfg = None) then Config.HTTPClient def
     else Config.HTTPClient cfg).

(** The endpoint before normalisation, in the words of the
    specification: the first non-empty one of the caller's value, the
    value of the environment variable, and the built-in default. *)
Definition chosenEndpoint (env : gmap string string) (caller : string) : string :=
  if bool_decide (caller ≠ "") then caller
  else match env !! "CHAOSMONKEY_ENDPOINT" with
       | Some v => if bool_decide (v ≠ "") then v else "http://127.0.0.1:8080"
       | None => "http://127.0.0.1:8080"
       end.

(** ** Sample surroundings, on which the definitions are run *)

Module sample.

Definition event_burn : APIResponse.t :=
  APIResponse.mk "BurnCpu" "i-0123456789" 1500 "CHAOS_TERMINATION" "my-asg" "ASG"
    "CHAOS" "eu-west-1" "".

Definition event_early : APIResponse.t :=
  APIResponse.mk "ShutdownInstance" "i-1969" (-1500) "CHAOS_TERMINATION" "my-asg"
    "ASG" "CHAOS" "eu-west-1" "".

Definition failure : APIResponse.t :=
  APIResponse.mk "" "" 0 "" "" "" "" "" "group not found".

(** A service that accepts every POST and fails every other request. *)
Definition server : http.Client :=
  http.mkClient (λ req,
    if bool_decide (http.Method req = "POST")
    then Ok (http.mkResponse "200 OK" 200 "event")
    else Ok (http.mkResponse "500 Internal Server Error" 500 "failure")).

(** A service that answers every request with a list of events. *)
Definition history : http.Client :=
  http.mkClient (λ req, Ok (http.mkResponse "200 OK" 200 "events")).

Definition platform : Platform := {|
  environ := {[ "CHAOSMONKEY_ENDPOINT" := "foo.example.com:9090" ]};
  http_DefaultClient := server;
  http_NewRequest_check := λ _ _, None;
  json_Decode_APIResponse := λ b,
    if bool_decide (b = "event") then Ok event_burn
    else if bool_decide (b = "failure") then Ok failure
    else Err "invalid character";
  json_Decode_APIResponses := λ b,
    if bool_decide (b = "events") then Ok [event_burn; event_early]
    else Err "invalid character"
|}.

(** A process without the environment variables. *)
Definition bare : Platform := {|
  environ := ∅;
  http_DefaultClient := server;
  http_NewRequest_check := λ _ _, None;
  json_Decode_APIResponse := json_Decode_APIResponse (Platform := platform);
  json_Decode_APIResponses := json_Decode_APIResponses (Platform := platform)
|}.

Definition blank : Config.t := Config.mk "" "" "" "" "" None.

Definition secure : Config.t :=
  Config.mk "https://chaos.example.com" "" "" "" "" None.

Definition ready : Config.t :=
  Config.mk "http://127.0.0.1:8080" "" "monkey" "secret" "chaosmonkey Go library"
    (Some server).

Definition reader : Config.t :=
  Config.mk "http://127.0.0.1:8080" "" "" "" "chaosmonkey Go library" (Some history).

Definition p1 : loc := 1%positive.
Definition c1 : Client.t := Client.mk p1.

Definition w_blank : World := mkWorld {[ p1 := blank ]} [].
Definition w_secure : World := mkWorld {[ p1 := secure ]} [].
Definition w_ready : World := mkWorld {[ p1 := ready ]} [].
Definition w_reader : World := mkWorld {[ p1 := reader ]} [].

(** One and a half seconds after the epoch. *)
Definition t_1500ms : time.Time := time.Unix 1 500000000.

(** A group name of the single byte 0xFF, which no UTF-8 text holds. *)
Definition raw_ff : string := String (ascii_of_nat 255) EmptyString.



(** A region with two pages of domains. *)
Definition simpledb : aws.SimpleDB :=
  aws.mkSimpleDB
    [aws.mkPage [Some "SIMIAN_ARMY"; Some "other"]; aws.mkPage [Some "third"]]
    None (λ _, None).

Definition sdk : aws.SDK := {|
  aws.session_NewSession := λ _, Ok simpledb;
  aws.fmt_q := λ s, dquote +:+ s +:+ dquote
|}.

(** A region whose listing breaks after the first page. *)
Definition simpledb_broken : aws.SimpleDB :=
  aws.mkSimpleDB [aws.mkPage [Some "SIMIAN_ARMY"]] (Some "RequestError: timeout")
    (λ _, None).

Definition sdk_broken : aws.SDK := {|
  aws.session_NewSession := λ _, Ok simpledb_broken;
  aws.fmt_q := λ s, dquote +:+ s +:+ dquote
|}.

(** A configuration that needs no default. *)
Definition full : Config.t :=
  Config.mk "https://chaos.example.com" "eu-west-1" "monkey" "secret" "curl/8"
    (Some history).

Definition w_full : World := mkWorld {[ p1 := full ]} [].

(** A service that cannot be reached. *)
Definition unreachable : http.Client :=
  http.mkClient (λ req, Err "dial tcp: connection refused").

Definition offline : Config.t :=
  Config.mk "http://127.0.0.1:8080" "eu-west-1" "" "" "chaosmonkey Go library"
    (Some unreachable).

Definition w_offline : World := mkWorld {[ p1 := offline ]} [].

(** A platform whose [http.NewRequest] rejects every URL. *)
Definition strict : Platform := {|
  environ := ∅;
  http_DefaultClient := server;
  http_NewRequest_check := λ _ _, Some "parse: invalid URL";
  json_Decode_APIResponse := json_Decode_APIResponse (Platform := platform);
  json_Decode_APIResponses := json_Decode_APIResponses (Platform := platform)
|}.

(** A process with credentials in its environment. *)
Definition with_credentials : Platform := {|
  environ := {[ "CHAOSMONKEY_USERNAME" := "monkey";
                "CHAOSMONKEY_PASSWORD" := "secret" ]};
  http_DefaultClient := server;
  http_NewRequest_check := λ _ _, None;
  json_Decode_APIResponse := json_Decode_APIResponse (Platform := platform);
  json_Decode_APIResponses := json_Decode_APIResponses (Platform := platform)
|}.

(** Two pages of auto scaling groups. *)
Definition web : aws.autoscaling.Group :=
  aws.autoscaling.mkGroup (Some "web")
    [aws.autoscaling.mkInstance (Some "InService");
     aws.autoscaling.mkInstance (Some "Pending");
     aws.autoscaling.mkInstance (Some "InService")]
    (Some 3) (Some 1) (Some 5).

Definition db : aws.autoscaling.Group :=
  aws.autoscaling.mkGroup (Some "db") [aws.autoscaling.mkInstance None]
    (Some 1) None (Some 1).

Definition scaling : aws.autoscaling.Service :=
  aws.autoscaling.mkService
    [aws.autoscaling.mkOutput [web]; aws.autoscaling.mkOutput [db]] None.

Definition scaling_sdk : aws.AutoScalingSDK := {|
  aws.autoscaling_NewSession := λ _, Ok scaling;
  aws.LifecycleStateInService := "InService";
  aws.int_of_int64 := λ z, z
|}.

Definition scaling_broken : aws.autoscaling.Service :=
  aws.autoscaling.mkService [aws.autoscaling.mkOutput [web]]
    (Some "RequestError: timeout").

Definition scaling_sdk_broken : aws.AutoScalingSDK := {|
  aws.autoscaling_NewSession := λ _, Ok scaling_broken;
  aws.LifecycleStateInService := "InService";
  aws.int_of_int64 := λ z, z
|}.

End sample.

(** * Properties *)

(** ** Arithmetic of the timestamp conversion *)

Lemma quot_1000_floor (T : Z) :
  T ÷ 1000 = T / 1000 + (if (T <? 0) && negb (T mod 1000 =? 0) then 1 else 0).
Proof.
  destruct (Z.ltb_spec T 0) as [Hneg | Hpos]; simpl.
  - destruct (Z.eqb_spec (T mod 1000) 0); simpl;
      Z.to_euclidean_division_equations; lia.
  - Z.to_euclidean_division_equations; lia.
Qed.

Lemma wrap64_id (z : Z) : int64_range z → wrap64 z = z.
Proof.
  unfold int64_range, wrap64. intros Hz.
  rewrite Z.mod_small by lia. lia.
Qed.

(** On an instant without a part of a millisecond or more, and within
    the range of int64, the parameter [EventsSince] computes is the
    instant in milliseconds. *)
Lemma since_exact_on_whole_seconds (t : time.Time) :
  0 <= time.nsec t < 1000000 →
  int64_range (time.sec t * 1000) →
  wrap64 (time.Time_Unix (time.UTC t) * 1000) = time.Time_UnixMilli (time.UTC t).
Proof.
  intros Hn Hr. unfold time.Time_Unix, time.Time_UnixMilli. cbn [time.UTC time.sec time.nsec].
  rewrite wrap64_id by exact Hr.
  rewrite (Z.div_small (time.nsec t)) by lia. lia.
Qed.

(** C1, as the code has it: for every wire response with eventTime = T,
    the TriggeredAt of the Event made by ToEvent is the instant T/1000
    whole seconds after the Unix epoch, with no sub-second part, in UTC,
    where the division truncates toward zero; this is floor(T/1000) when
    T is not negative or is a multiple of 1000, and floor(T/1000) + 1
    otherwise. *)
Theorem ToEvent_TriggeredAt_truncates (resp : APIResponse.t) :
  Event.TriggeredAt (ToEvent resp)
  = time.mkTime (APIResponse.EventTime resp ÷ 1000) 0 time.UTCLoc
  ∧ APIResponse.EventTime resp ÷ 1000
    = APIResponse.EventTime resp / 1000
      + (if (APIResponse.EventTime resp <? 0)
            && negb (APIResponse.EventTime resp mod 1000 =? 0)
         then 1 else 0).
Proof.
  split.
  - reflexivity.
  - apply quot_1000_floor.
Qed.

(** C1 fails as stated: an event time of -1500 ms gives the instant -1 s,
    while floor(-1500/1000) is -2. *)
Lemma ToEvent_floor_counterexample :
  APIResponse.EventTime sample.event_early = -1500
  ∧ Event.TriggeredAt (ToEvent sample.event_early) = time.mkTime (-1) 0 time.UTCLoc
  ∧ Event.TriggeredAt (ToEvent sample.event_early)
    ≠ time.mkTime (-1500 / 1000) 0 time.UTCLoc.
Proof.
  split; [reflexivity|]. split; [reflexivity|].
  vm_compute. discriminate.
Qed.

(** ** Running the monadic code *)

Section steps.
Context {A B : Type}.

Lemma get_bound (p : loc) (f : Config.t → A) (k : A → M B) w (x : Config.t) :
  heap w !! p = Some x → bind (get p f) k w = k (f x) w.
Proof. intros E. unfold bind, get. by rewrite E. Qed.

Lemma get_insert (p : loc) (f : Config.t → A) (k : A → M B)
    (h : gmap loc Config.t) s (x : Config.t) :
  bind (get p f) k (mkWorld (<[p := x]> h) s) = k (f x) (mkWorld (<[p := x]> h) s).
Proof. apply get_bound. simpl. apply lookup_insert_eq. Qed.

Lemma when_set_insert (b : bool) (p : loc) upd (k : unit → M B)
    (h : gmap loc Config.t) s (x : Config.t) :
  bind (when b (set p upd)) k (mkWorld (<[p := x]> h) s)
  = k tt (mkWorld (<[p := if b then upd x else x]> h) s).
Proof.
  destruct b; [|reflexivity].
  unfold bind, when, set. simpl. by rewrite lookup_insert_eq, insert_insert_eq.
Qed.

End steps.

Ltac config_simpl :=
  cbn [Config.Endpoint Config.Region Config.Username Config.Password
       Config.UserAgent Config.HTTPClient Config.set_Endpoint
       Config.set_Username Config.set_Password Config.set_UserAgent
       Config.set_HTTPClient].

(** One [if c.F == zero { c.F = ... }] of [NewClient]. *)
Ltac step_field :=
  rewrite get_insert; rewrite when_set_insert; config_simpl;
  match goal with
  | |- _ (mkWorld (<[_ := if ?b then _ else _]> _) _) = _ =>
    match b with
    | negb ?b' => destruct b'
    | _ => destruct b
    end
  end; cbn [negb]; config_simpl.

(** ** Configuration resolution *)

Lemma NewClient_insert `{Platform} c (h : gmap loc Config.t) s cfg :
  NewClient c (mkWorld (<[c := cfg]> h) s) =
    Some ((Client.mk c, None), mkWorld (<[c := resolve DefaultConfig cfg]> h) s).
Proof.
  unfold NewClient, resolve. generalize DefaultConfig. intros def.
  destruct cfg as [e r u p a t]. config_simpl.
  do 6 step_field; reflexivity.
Qed.

Lemma NewClient_run `{Platform} c w cfg :
  heap w !! c = Some cfg →
  NewClient c w =
    Some ((Client.mk c, None),
          mkWorld (<[c := resolve DefaultConfig cfg]> (heap w)) (sent w)).
Proof.
  destruct w as [h s]. simpl. intros E.
  rewrite <- (insert_id h c cfg E) at 1.
  rewrite NewClient_insert. reflexivity.
Qed.

(** A nil pointer: the first field access panics. *)
Lemma NewClient_nil `{Platform} c w : heap w !! c = None → NewClient c w = None.
Proof. intros E. unfold NewClient, bind, get. by rewrite E. Qed.

(** ** The defaults *)

Lemma DefaultConfig_Endpoint `{Platform} :
  Config.Endpoint DefaultConfig = chosenEndpoint environ "".
Proof.
  unfold DefaultConfig, chosenEndpoint, os_Getenv.
  rewrite (bool_decide_eq_false_2 ("" ≠ "")) by (intros Hne; by apply Hne).
  destruct (environ !! "CHAOSMONKEY_ENDPOINT") as [v|]; simpl.
  - destruct (bool_decide (v ≠ "")); simpl;
      repeat (destruct (bool_decide _); simpl); reflexivity.
  - repeat (destruct (bool_decide _); simpl); reflexivity.
Qed.

Lemma DefaultConfig_UserAgent `{Platform} :
  Config.UserAgent DefaultConfig = "chaosmonkey Go library".
Proof.
  unfold DefaultConfig. repeat (destruct (bool_decide _); simpl); reflexivity.
Qed.

Lemma DefaultConfig_HTTPClient `{Platform} :
  Config.HTTPClient DefaultConfig = Some http_DefaultClient.
Proof.
  unfold DefaultConfig. repeat (destruct (bool_decide _); simpl); reflexivity.
Qed.

Lemma chosenEndpoint_caller `{Platform} caller :
  (if bool_decide (caller = "") then Config.Endpoint DefaultConfig else caller)
  = chosenEndpoint environ caller.
Proof.
  rewrite DefaultConfig_Endpoint. unfold chosenEndpoint at 2.
  destruct (decide (caller = "")) as [->|Hne].
  - rewrite bool_decide_eq_true_2 by done.
    rewrite (bool_decide_eq_false_2 ("" ≠ "")) by (intros Hne; by apply Hne).
    reflexivity.
  - rewrite bool_decide_eq_false_2 by done. by rewrite bool_decide_eq_true_2.
Qed.

Lemma resolve_Endpoint `{Platform} cfg :
  Config.Endpoint (resolve DefaultConfig cfg)
  = let e := chosenEndpoint environ (Config.Endpoint cfg) in
    if strings_HasPrefix e "http" then e else "http://" +:+ e.
Proof. unfold resolve. cbn [Config.Endpoint]. by rewrite chosenEndpoint_caller. Qed.



Lemma HasPrefix_http_nonempty (s : string) :
  strings_HasPrefix s "http" = true → s ≠ "".
Proof. by intros Hp ->. Qed.

(** C5, as the code has it: for every configuration the caller passes
    (a pointer that is not nil), NewClient returns a client and a nil
    error, and the configuration the client holds has a non-empty
    endpoint, a non-empty user agent and a transport handle; the region
    is the caller's, so it stays empty when the caller gave none, as the
    username and the password may. *)
Theorem NewClient_total_resolved `{Platform} c w cfg :
  heap w !! c = Some cfg →
  ∃ cl w' cfg',
    NewClient c w = Some ((cl, None), w')
    ∧ heap w' !! Client.config cl = Some cfg'
    ∧ Config.Endpoint cfg' ≠ ""
    ∧ Config.UserAgent cfg' ≠ ""
    ∧ Config.HTTPClient cfg' ≠ None
    ∧ Config.Region cfg' = Config.Region cfg.
Proof.
  intros Hc. rewrite (NewClient_run c w cfg Hc).
  eexists _, _, _. split; [reflexivity|].
  split; [apply lookup_insert_eq|].
  split; [|split; [|split]].
  - rewrite resolve_Endpoint. cbv zeta.
    destruct (strings_HasPrefix _ "http") eqn:Hp.
    + by apply HasPrefix_http_nonempty.
    + done.
  - unfold resolve. cbn [Config.UserAgent]. case_bool_decide; [|done].
    by rewrite DefaultConfig_UserAgent.
  - unfold resolve. cbn [Config.HTTPClient]. case_bool_decide; [|done].
    by rewrite DefaultConfig_HTTPClient.
  - reflexivity.
Qed.

Lemma NewClient_total_resolved_witness :
  ∃ cl w' cfg',
    NewClient (P := sample.platform) sample.p1 sample.w_secure = Some ((cl, None), w')
    ∧ heap w' !! Client.config cl = Some cfg'
    ∧ Config.Endpoint cfg' ≠ ""
    ∧ Config.UserAgent cfg' ≠ ""
    ∧ Config.HTTPClient cfg' ≠ None
    ∧ Config.Region cfg' = Config.Region sample.secure.
Proof.
  apply (NewClient_total_resolved (H := sample.platform) sample.p1 sample.w_secure
           sample.secure).
  reflexivity.
Defined.

(** C5 fails as stated: a configuration without a region is resolved
    without a region. *)
Lemma NewClient_region_counterexample :
  ∃ cl w' cfg',
    NewClient (P := sample.platform) sample.p1 sample.w_blank = Some ((cl, None), w')
    ∧ heap w' !! Client.config cl = Some cfg'
    ∧ Config.Region cfg' = "".
Proof.
  eexists _, _, _. split; [vm_compute; reflexivity|].
  split; [vm_compute; reflexivity|]. reflexivity.
Qed.




(** C10: NewClient writes the resolved configuration into the object
    the caller's pointer designates (its Endpoint, Username, Password,
    UserAgent and HTTPClient fields; the Region and every other object
    are left as they were), and the client holds that very pointer: what
    the caller writes through it afterwards is what the client reads. *)
Theorem NewClient_in_place `{Platform} c w cfg :
  heap w !! c = Some cfg →
  ∃ cl w',
    NewClient c w = Some ((cl, None), w')
    ∧ Client.config cl = c
    ∧ heap w' = <[c := resolve DefaultConfig cfg]> (heap w)
    ∧ sent w' = sent w
    ∧ Config.Region (resolve DefaultConfig cfg) = Config.Region cfg
    ∧ (∀ p, p ≠ c → heap w' !! p = heap w !! p)
    ∧ (∀ (upd : Config.t → Config.t) (f : Config.t → string),
         bind (set c upd) (λ _, get (Client.config cl) f) w'
         = Some (f (upd (resolve DefaultConfig cfg)),
                 mkWorld (<[c := upd (resolve DefaultConfig cfg)]> (heap w)) (sent w))).
Proof.
  intros Hc. rewrite (NewClient_run c w cfg Hc).
  eexists _, _. split; [reflexivity|]. cbn [Client.config heap sent].
  do 4 (split; [reflexivity|]). split.
  - intros p Hp. by rewrite lookup_insert_ne.
  - intros upd f. unfold bind, set, get. cbn [heap sent].
    rewrite lookup_insert_eq. cbn [heap sent].
    rewrite insert_insert_eq, lookup_insert_eq. reflexivity.
Qed.

Lemma NewClient_in_place_witness :
  ∃ cl w',
    NewClient (P := sample.platform) sample.p1 sample.w_blank = Some ((cl, None), w')
    ∧ Client.config cl = sample.p1
    ∧ heap w' !! sample.p1
      = Some (Config.mk "http://foo.example.com:9090" "" "" ""
                "chaosmonkey Go library" (Some sample.server)).
Proof.
  destruct (NewClient_in_place (H := sample.platform) sample.p1 sample.w_blank
              sample.blank) as (cl & w' & Hrun & Hcl & Hh & _);
    [reflexivity|].
  exists cl, w'. split; [exact Hrun|]. split; [exact Hcl|].
  rewrite Hh. vm_compute. reflexivity.
Defined.

(** ** The request layer *)

Lemma sendRequest_rejected `{Platform} {A} c w method url body
    (out : string → result A) e :
  http_NewRequest_check method url = Some e →
  sendRequest c method url body out w = Some (Err e, w).
Proof. intros E. unfold sendRequest, http_NewRequest. by rewrite E. Qed.

Lemma sendRequest_run `{Platform} {A} c w cfg cl method url body
    (out : string → result A) :
  heap w !! Client.config c = Some cfg →
  Config.HTTPClient cfg = Some cl →
  http_NewRequest_check method url = None →
  sendRequest c method url body out w =
    let req := setHeaders (Config.Username cfg) (Config.Password cfg)
                 (Config.UserAgent cfg) (http.mkRequest method url body []) in
    Some (match http.Do cl req with
          | Err e => Err e
          | Ok resp =>
            if bool_decide (http.StatusCode resp ≠ http.StatusOK)
            then Err (decodeError resp)
            else out (http.RespBody resp)
          end,
          mkWorld (heap w) (sent w ++ [req])).
Proof.
  intros Hc Hcl Hok.
  unfold sendRequest, http_NewRequest. rewrite Hok.
  rewrite !(get_bound _ _ _ _ _ Hc). rewrite Hcl.
  unfold bind, Do. simpl.
  destruct (http.Do cl _) as [resp|e]; [|reflexivity].
  destruct (bool_decide _); reflexivity.
Qed.

Lemma setHeaders_Authorization username password userAgent method url body :
  http.Header_Values "Authorization"
    (http.Hdr (setHeaders username password userAgent
                 (http.mkRequest method url body [])))
  = if bool_decide (username ≠ "") && bool_decide (password ≠ "")
    then ["Basic " +:+ base64.EncodeToString (username +:+ ":" +:+ password)]
    else [].
Proof.
  unfold setHeaders, http.SetBasicAuth.
  generalize (base64.EncodeToString (username +:+ ":" +:+ password)).
  intros v. destruct (_ && _); reflexivity.
Qed.

Lemma setHeaders_UserAgent username password userAgent method url body :
  http.Header_Values "User-Agent"
    (http.Hdr (setHeaders username password userAgent
                 (http.mkRequest method url body [])))
  = [userAgent].
Proof.
  unfold setHeaders, http.SetBasicAuth.
  generalize (base64.EncodeToString (username +:+ ":" +:+ password)).
  intros v. destruct (_ && _); reflexivity.
Qed.

Lemma setHeaders_frame username password userAgent req :
  http.Method (setHeaders username password userAgent req) = http.Method req
  ∧ http.URL (setHeaders username password userAgent req) = http.URL req
  ∧ http.Body (setHeaders username password userAgent req) = http.Body req.
Proof. unfold setHeaders. destruct (_ && _); done. Qed.

Lemma both_nonempty (u p : string) :
  bool_decide (u ≠ "") && bool_decide (p ≠ "") = true ↔ u ≠ "" ∧ p ≠ "".
Proof. rewrite andb_true_iff, !bool_decide_eq_true. done. Qed.

(** C7: for every resolved configuration (one whose transport handle is
    set), the request sendRequest hands to the transport carries an
    Authorization header exactly when both the username and the password
    are non-empty, in which case it is the Basic credentials of the pair,
    and it always carries the configured User-Agent. *)
Theorem sendRequest_headers `{Platform} {A} c w cfg cl method url body
    (out : string → result A) :
  heap w !! Client.config c = Some cfg →
  Config.HTTPClient cfg = Some cl →
  http_NewRequest_check method url = None →
  ∃ r req,
    sendRequest c method url body out w = Some (r, mkWorld (heap w) (sent w ++ [req]))
    ∧ http.Method req = method ∧ http.URL req = url ∧ http.Body req = body
    ∧ (http.Header_Values "Authorization" (http.Hdr req) ≠ []
       ↔ Config.Username cfg ≠ "" ∧ Config.Password cfg ≠ "")
    ∧ (Config.Username cfg ≠ "" ∧ Config.Password cfg ≠ "" →
       http.Header_Values "Authorization" (http.Hdr req) =
         ["Basic " +:+ base64.EncodeToString
                         (Config.Username cfg +:+ ":" +:+ Config.Password cfg)])
    ∧ http.Header_Values "User-Agent" (http.Hdr req) = [Config.UserAgent cfg].
Proof.
  intros Hc Hcl Hok. rewrite (sendRequest_run _ _ _ _ _ _ _ _ Hc Hcl Hok).
  eexists _, _. split; [reflexivity|].
  destruct (setHeaders_frame (Config.Username cfg) (Config.Password cfg)
              (Config.UserAgent cfg) (http.mkRequest method url body []))
    as (Hm & Hu & Hb).
  rewrite Hm, Hu, Hb, setHeaders_Authorization, setHeaders_UserAgent.
  cbn [http.Method http.URL http.Body].
  do 3 (split; [reflexivity|]).
  split; [split|split; [|reflexivity]].
  - intros Hne. apply both_nonempty. destruct (_ && _); done.
  - intros Hne. apply both_nonempty in Hne. by rewrite Hne.
  - intros Hne. apply both_nonempty in Hne. by rewrite Hne.
Qed.

(** C2: when the transport answers with a status other than 200,
    sendRequest fails; the text of the error is the message of the body
    when the body decodes as a wire response with a non-empty message, and
    "HTTP error: " followed by the status line otherwise. *)
Theorem sendRequest_non200 `{Platform} {A} c w cfg cl method url body
    (out : string → result A) resp :
  heap w !! Client.config c = Some cfg →
  Config.HTTPClient cfg = Some cl →
  http_NewRequest_check method url = None →
  http.Do cl (setHeaders (Config.Username cfg) (Config.Password cfg)
                (Config.UserAgent cfg) (http.mkRequest method url body []))
  = Ok resp →
  http.StatusCode resp ≠ 200 →
  ∃ e w',
    sendRequest c method url body out w = Some (Err e, w')
    ∧ (∀ r, json_Decode_APIResponse (http.RespBody resp) = Ok r →
            APIResponse.Message r ≠ "" → e = APIResponse.Message r)
    ∧ ((∀ r, json_Decode_APIResponse (http.RespBody resp) = Ok r →
             APIResponse.Message r = "") →
       e = "HTTP error: " +:+ http.Status resp).
Proof.
  intros Hc Hcl Hok Hdo Hst. rewrite (sendRequest_run _ _ _ _ _ _ _ _ Hc Hcl Hok).
  cbv zeta. rewrite Hdo. rewrite bool_decide_eq_true_2 by exact Hst.
  eexists _, _. split; [reflexivity|]. unfold decodeError. split.
  - intros r Hr Hm. rewrite Hr. by rewrite bool_decide_eq_true_2.
  - intros Hall. destruct (json_Decode_APIResponse _) as [r|e]; [|done].
    rewrite bool_decide_eq_false_2; [done|]. intros Hne. by apply Hne, Hall.
Qed.

Lemma sendRequest_headers_witness :
  ∃ r req,
    sendRequest (P := sample.platform) sample.c1 "GET" "http://127.0.0.1:8080/" None
      (json_Decode_APIResponses (Platform := sample.platform)) sample.w_ready
    = Some (r, mkWorld (heap sample.w_ready) (sent sample.w_ready ++ [req]))
    ∧ http.Header_Values "Authorization" (http.Hdr req) = ["Basic bW9ua2V5OnNlY3JldA=="]
    ∧ http.Header_Values "User-Agent" (http.Hdr req) = ["chaosmonkey Go library"].
Proof.
  destruct (sendRequest_headers (H := sample.platform) sample.c1 sample.w_ready
              sample.ready sample.server "GET" "http://127.0.0.1:8080/" None
              (json_Decode_APIResponses (Platform := sample.platform)))
    as (r & req & Hrun & _ & _ & _ & _ & Hauth & Hua);
    [reflexivity | reflexivity | reflexivity |].
  exists r, req. split; [exact Hrun|]. split; [|exact Hua].
  rewrite Hauth; [reflexivity|]. split; discriminate.
Defined.

Lemma sendRequest_non200_witness :
  ∃ e w',
    sendRequest (P := sample.platform) sample.c1 "GET" "http://127.0.0.1:8080/" None
      (json_Decode_APIResponses (Platform := sample.platform)) sample.w_ready
    = Some (Err e, w')
    ∧ e = "group not found".
Proof.
  destruct (sendRequest_non200 (H := sample.platform) sample.c1 sample.w_ready
              sample.ready sample.server "GET" "http://127.0.0.1:8080/" None
              (json_Decode_APIResponses (Platform := sample.platform))
              (http.mkResponse "500 Internal Server Error" 500 "failure"))
    as (e & w' & Hrun & Hmsg & _);
    [reflexivity | reflexivity | reflexivity | reflexivity | discriminate |].
  exists e, w'. split; [exact Hrun|].
  apply (Hmsg sample.failure); [reflexivity | discriminate].
Defined.

(** ** The query operations *)

(** The encoder leaves valid UTF-8 as it is. *)
Lemma appendString_valid (s : string) (keep : nat) :
  utf8.validFrom s keep = true → appendString s keep = s.
Proof.
  revert keep. induction s as [|b s IH]; intros keep; [done|].
  cbn [utf8.validFrom appendString]. destruct keep as [|k].
  - destruct (utf8.runeSize (String b s)) as [n|]; [|done].
    intros Hv. by rewrite IH.
  - intros Hv. by rewrite IH.
Qed.

Lemma json_string_valid (s : string) :
  utf8.ValidString s = true → json_string s = s.
Proof. apply appendString_valid. Qed.

(** The body [TriggerEvent] marshals. *)
Lemma json_Marshal_members strategy group region :
  ∃ body,
    json_Marshal (APIRequest.mk strategy "CHAOS_TERMINATION" group "ASG" region)
    = Ok body
    ∧ member "groupName" body = Some (json_string group)
    ∧ member "groupType" body = Some "ASG"
    ∧ member "eventType" body = Some "CHAOS_TERMINATION"
    ∧ member "chaosType" body
      = (if bool_decide (strategy = "") then None else Some (json_string strategy))
    ∧ member "region" body
      = (if bool_decide (region = "") then None else Some (json_string region)).
Proof.
  eexists. split; [reflexivity|].
  cbn [APIRequest.ChaosType APIRequest.EventType APIRequest.GroupName
       APIRequest.GroupType APIRequest.Region].
  unfold omitempty.
  generalize (json_string group), (json_string strategy), (json_string region).
  intros g s r.
  rewrite (bool_decide_decide (strategy = "")), (bool_decide_decide (region = "")).
  repeat case_decide; repeat split; reflexivity.
Qed.

Lemma TriggerEvent_run `{Platform} c w cfg cl group strategy :
  heap w !! Client.config c = Some cfg →
  Config.HTTPClient cfg = Some cl →
  http_NewRequest_check "POST" (Config.Endpoint cfg +:+ APIPath) = None →
  ∃ body,
    json_Marshal (APIRequest.mk strategy "CHAOS_TERMINATION" group "ASG"
                    (Config.Region cfg)) = Ok body
    ∧ TriggerEvent c group strategy w =
      let req := setHeaders (Config.Username cfg) (Config.Password cfg)
                   (Config.UserAgent cfg)
                   (http.mkRequest "POST" (Config.Endpoint cfg +:+ APIPath)
                      (Some body) []) in
      Some (match http.Do cl req with
            | Err e => Err e
            | Ok resp =>
              if bool_decide (http.StatusCode resp ≠ http.StatusOK)
              then Err (decodeError resp)
              else match json_Decode_APIResponse (http.RespBody resp) with
                   | Ok r => Ok (ToEvent r)
                   | Err e => Err e
                   end
            end,
            mkWorld (heap w) (sent w ++ [req])).
Proof.
  intros Hc Hcl Hok. eexists. split; [reflexivity|].
  unfold TriggerEvent. rewrite !(get_bound _ _ _ _ _ Hc).
  unfold json_Marshal. unfold bind at 1.
  rewrite (sendRequest_run _ _ _ _ _ _ _ _ Hc Hcl Hok). cbv zeta.
  destruct (http.Do cl _) as [resp|e]; [|reflexivity].
  destruct (bool_decide _); [reflexivity|].
  destruct (json_Decode_APIResponse _); reflexivity.
Qed.

Lemma foldl_snoc_map {X Y} (f : X → Y) (l : list X) (acc : list Y) :
  foldl (λ events r, events ++ [f r]) acc l = acc ++ map f l.
Proof.
  revert acc. induction l as [|x l IH]; intros acc; simpl.
  - by rewrite app_nil_r.
  - rewrite IH. by rewrite <- app_assoc.
Qed.

Lemma events_run `{Platform} c w cfg cl since :
  heap w !! Client.config c = Some cfg →
  Config.HTTPClient cfg = Some cl →
  http_NewRequest_check "GET"
    (Config.Endpoint cfg +:+ APIPath +:+ "?since=" +:+ fmt_d since) = None →
  events c since w =
    let req := setHeaders (Config.Username cfg) (Config.Password cfg)
                 (Config.UserAgent cfg)
                 (http.mkRequest "GET"
                    (Config.Endpoint cfg +:+ APIPath +:+ "?since=" +:+ fmt_d since)
                    None []) in
    Some (match http.Do cl req with
          | Err e => Err e
          | Ok resp =>
            if bool_decide (http.StatusCode resp ≠ http.StatusOK)
            then Err (decodeError resp)
            else match json_Decode_APIResponses (http.RespBody resp) with
                 | Ok rs => Ok (map ToEvent rs)
                 | Err e => Err e
                 end
          end,
          mkWorld (heap w) (sent w ++ [req])).
Proof.
  intros Hc Hcl Hok.
  unfold events. rewrite !(get_bound _ _ _ _ _ Hc). unfold bind at 1.
  rewrite (sendRequest_run _ _ _ _ _ _ _ _ Hc Hcl Hok). cbv zeta.
  destruct (http.Do cl _) as [resp|e]; [|reflexivity].
  destruct (bool_decide _); [reflexivity|].
  destruct (json_Decode_APIResponses _) as [rs|e]; [|reflexivity].
  unfold ret. by rewrite foldl_snoc_map.
Qed.

(** C3, as the code has it: for every group name g and strategy s,
    TriggerEvent(g, s) hands the transport one POST request to the API
    path whose body has groupType = "ASG", eventType =
    "CHAOS_TERMINATION", and g as groupName and s as chaosType the way
    the JSON encoder writes a string: as it is when it is valid UTF-8,
    every byte outside a well-formed sequence replaced by U+FFFD
    otherwise (the chaosType member is left out when s is empty); it
    succeeds exactly when the answer has status 200 and a body that
    decodes, and the Event it then returns has the chaosType of the
    decoded response as its Strategy and the eventId of the decoded
    response as its InstanceID. *)
Theorem TriggerEvent_request_and_event `{Platform} c w cfg cl group strategy :
  heap w !! Client.config c = Some cfg →
  Config.HTTPClient cfg = Some cl →
  http_NewRequest_check "POST" (Config.Endpoint cfg +:+ APIPath) = None →
  ∃ r req body,
    TriggerEvent c group strategy w = Some (r, mkWorld (heap w) (sent w ++ [req]))
    ∧ http.Method req = "POST"
    ∧ http.URL req = Config.Endpoint cfg +:+ APIPath
    ∧ http.Body req = Some body
    ∧ member "groupName" body = Some (json_string group)
    ∧ (utf8.ValidString group = true → member "groupName" body = Some group)
    ∧ member "groupType" body = Some "ASG"
    ∧ member "eventType" body = Some "CHAOS_TERMINATION"
    ∧ member "chaosType" body
      = (if bool_decide (strategy = "") then None else Some (json_string strategy))
    ∧ (utf8.ValidString strategy = true →
       member "chaosType" body
       = (if bool_decide (strategy = "") then None else Some strategy))
    ∧ (∀ resp wire,
         http.Do cl req = Ok resp → http.StatusCode resp = 200 →
         json_Decode_APIResponse (http.RespBody resp) = Ok wire →
         r = Ok (ToEvent wire))
    ∧ (∀ ev, r = Ok ev →
         ∃ resp wire,
           http.Do cl req = Ok resp ∧ http.StatusCode resp = 200
           ∧ json_Decode_APIResponse (http.RespBody resp) = Ok wire
           ∧ Event.Strategy ev = APIResponse.ChaosType wire
           ∧ Event.InstanceID ev = APIResponse.EventID wire).
Proof.
  intros Hc Hcl Hok.
  destruct (TriggerEvent_run c w cfg cl group strategy Hc Hcl Hok) as (body & Hb & Hrun).
  destruct (json_Marshal_members strategy group (Config.Region cfg))
    as (body' & Hb' & Hg & Ht & He & Hs & _).
  rewrite Hb in Hb'. injection Hb' as <-.
  rewrite Hrun. cbv zeta.
  destruct (setHeaders_frame (Config.Username cfg) (Config.Password cfg)
              (Config.UserAgent cfg)
              (http.mkRequest "POST" (Config.Endpoint cfg +:+ APIPath) (Some body) []))
    as (Hm & Hu & Hbd).
  eexists _, _, body. split; [reflexivity|].
  rewrite Hm, Hu, Hbd. cbn [http.Method http.URL http.Body].
  do 4 (split; [done|]).
  split; [intros Hv; by rewrite Hg, (json_string_valid _ Hv)|].
  do 3 (split; [done|]).
  split; [intros Hv; by rewrite Hs, (json_string_valid _ Hv)|].
  split.
  - intros resp wire Hdo Hst Hdec. rewrite Hdo.
    rewrite bool_decide_eq_false_2 by (intros Hne; by apply Hne).
    by rewrite Hdec.
  - intros ev Hev. destruct (http.Do cl _) as [resp|e]; [|done].
    destruct (decide (http.StatusCode resp = http.StatusOK)) as [Hst|Hst].
    + rewrite bool_decide_eq_false_2 in Hev by (intros Hne; by apply Hne).
      destruct (json_Decode_APIResponse _) as [wire|e] eqn:Hdec; [|done].
      injection Hev as <-. by exists resp, wire.
    + by rewrite bool_decide_eq_true_2 in Hev.
Qed.

Lemma TriggerEvent_request_and_event_witness :
  ∃ r req body,
    TriggerEvent (P := sample.platform) sample.c1 "my-asg" StrategyBurnCPU sample.w_ready
    = Some (r, mkWorld (heap sample.w_ready) (sent sample.w_ready ++ [req]))
    ∧ http.Method req = "POST"
    ∧ http.URL req = "http://127.0.0.1:8080/simianarmy/api/v1/chaos"
    ∧ http.Body req = Some body
    ∧ member "groupName" body = Some "my-asg"
    ∧ member "chaosType" body = Some "BurnCpu".
Proof.
  destruct (TriggerEvent_request_and_event (H := sample.platform) sample.c1
              sample.w_ready sample.ready sample.server "my-asg" StrategyBurnCPU)
    as (r & req & body & Hrun & Hm & Hu & Hb & _ & Hg & _ & _ & _ & Hs & _);
    [reflexivity | reflexivity | reflexivity |].
  exists r, req, body. do 4 (split; [assumption|]).
  split; [apply Hg | apply Hs]; reflexivity.
Defined.

(** C3 fails as stated: the service answers a ShutdownInstance request
    with an event whose chaosType is BurnCpu, and that is the strategy of
    the Event returned; and a group name of the byte 0xFF is sent as
    U+FFFD. *)
Lemma TriggerEvent_strategy_counterexample :
  (∃ ev w',
     TriggerEvent (P := sample.platform) sample.c1 "my-asg" StrategyShutdownInstance
       sample.w_ready = Some (Ok ev, w')
     ∧ Event.Strategy ev = "BurnCpu"
     ∧ Event.Strategy ev ≠ StrategyShutdownInstance)
  ∧ (∃ r req body,
       TriggerEvent (P := sample.platform) sample.c1 sample.raw_ff StrategyBurnCPU
         sample.w_ready
       = Some (r, mkWorld (heap sample.w_ready) (sent sample.w_ready ++ [req]))
       ∧ http.Body req = Some body
       ∧ member "groupName" body = Some utf8.RuneError
       ∧ member "groupName" body ≠ Some sample.raw_ff).
Proof.
  split.
  - eexists _, _. split; [vm_compute; reflexivity|].
    split; [reflexivity|]. vm_compute. discriminate.
  - eexists _, _, _. split; [vm_compute; reflexivity|].
    split; [reflexivity|]. split; [reflexivity|]. vm_compute. discriminate.
Qed.




(** C8: in every world, so for every answer of the remote service,
    Events() is EventsSince at the start of the Unix epoch; the request
    it hands to the transport is a GET with since=0. *)
Theorem Events_is_EventsSince_epoch `{Platform} c w :
  Events c w = EventsSince c (time.Unix 0 0) w
  ∧ ∀ cfg cl,
      heap w !! Client.config c = Some cfg →
      Config.HTTPClient cfg = Some cl →
      http_NewRequest_check "GET" (Config.Endpoint cfg +:+ APIPath +:+ "?since=0")
      = None →
      ∃ r req,
        Events c w = Some (r, mkWorld (heap w) (sent w ++ [req]))
        ∧ http.Method req = "GET"
        ∧ http.URL req = Config.Endpoint cfg +:+ APIPath +:+ "?since=0".
Proof.
  split; [reflexivity|].
  intros cfg cl Hc Hcl Hok. unfold Events.
  change "0" with (fmt_d 0) in Hok |- *.
  rewrite (events_run _ _ _ _ _ Hc Hcl Hok). cbv zeta.
  destruct (setHeaders_frame (Config.Username cfg) (Config.Password cfg)
              (Config.UserAgent cfg)
              (http.mkRequest "GET"
                 (Config.Endpoint cfg +:+ APIPath +:+ "?since=" +:+ fmt_d 0) None []))
    as (Hm & Hu & _).
  eexists _, _. split; [reflexivity|].
  rewrite Hm, Hu. done.
Qed.

Lemma Events_is_EventsSince_epoch_witness :
  Events (P := sample.platform) sample.c1 sample.w_reader
  = EventsSince (P := sample.platform) sample.c1 (time.Unix 0 0) sample.w_reader
  ∧ ∃ r req,
      Events (P := sample.platform) sample.c1 sample.w_reader
      = Some (r, mkWorld (heap sample.w_reader) (sent sample.w_reader ++ [req]))
      ∧ http.Method req = "GET"
      ∧ http.URL req = "http://127.0.0.1:8080/simianarmy/api/v1/chaos?since=0".
Proof.
  destruct (Events_is_EventsSince_epoch (H := sample.platform) sample.c1
              sample.w_reader) as [Heq Hreq].
  split; [exact Heq|].
  apply (Hreq sample.reader sample.history); reflexivity.
Defined.

(** ** The SimpleDB helper *)

(** The callback of [DeleteSimpleDBDomain] on one page. *)
Lemma scan_page (domainName : string) (names : list (option string)) (seen : bool) :
  foldl (λ domainExists n,
           if bool_decide (aws.StringValue n = domainName) then true
           else domainExists) seen names
  = seen || bool_decide (domainName ∈ map aws.StringValue names).
Proof.
  revert seen. induction names as [|n names IH]; intros seen; cbn [foldl map].
  - rewrite bool_decide_eq_false_2 by apply not_elem_of_nil. by rewrite orb_false_r.
  - rewrite IH. destruct (decide (aws.StringValue n = domainName)) as [E|E].
    + rewrite (bool_decide_eq_true_2 _ E).
      rewrite (bool_decide_eq_true_2 (domainName ∈ _ :: _)) by (rewrite <- E; left).
      by rewrite orb_true_r.
    + rewrite (bool_decide_eq_false_2 _ E). f_equal.
      apply bool_decide_ext. rewrite elem_of_cons.
      split; [tauto | intros [Heq|Hin]; [by destruct E|exact Hin]].
Qed.

(** The listing visits every page: the callback stops it at the last
    page only. *)
Lemma eachPage_scan (domainName : string) ps err (seen : bool) :
  aws.eachPage ps err
    (λ out last domainExists,
       (foldl (λ domainExists n,
                 if bool_decide (aws.StringValue n = domainName) then true
                 else domainExists)
              domainExists (aws.DomainNames out),
        negb last))
    seen
  = (seen || bool_decide
               (domainName ∈ concat (map (λ p, map aws.StringValue (aws.DomainNames p)) ps)),
     err).
Proof.
  revert seen. induction ps as [|p ps IH]; intros seen.
  - cbn [aws.eachPage map concat].
    rewrite bool_decide_eq_false_2 by apply not_elem_of_nil.
    by rewrite orb_false_r.
  - cbn [aws.eachPage]. rewrite scan_page.
    assert (Hor :
      seen || bool_decide (domainName ∈ map aws.StringValue (aws.DomainNames p))
      || bool_decide (domainName ∈
           concat (map (λ p, map aws.StringValue (aws.DomainNames p)) ps))
      = seen || bool_decide (domainName ∈
           concat (map (λ p, map aws.StringValue (aws.DomainNames p)) (p :: ps)))).
    { rewrite <- orb_assoc. f_equal. cbn [map concat].
      destruct (decide (domainName ∈ map aws.StringValue (aws.DomainNames p)
                        ++ concat (map (λ p, map aws.StringValue (aws.DomainNames p)) ps)))
        as [Hin|Hin].
      - rewrite (bool_decide_eq_true_2 _ Hin). apply elem_of_app in Hin.
        destruct Hin as [Hin|Hin]; rewrite (bool_decide_eq_true_2 _ Hin);
          [done|by rewrite orb_true_r].
      - rewrite (bool_decide_eq_false_2 _ Hin).
        rewrite !bool_decide_eq_false_2; [done| |];
          intros Hin'; apply Hin, elem_of_app; tauto. }
    destruct (bool_decide (ps = []) && bool_decide (err = None)) eqn:Hlast;
      cbn [negb].
    + apply andb_true_iff in Hlast as [Hps Herr].
      apply bool_decide_eq_true in Hps, Herr. subst ps err.
      rewrite <- Hor. cbn [map concat].
      rewrite (bool_decide_eq_false_2 (domainName ∈ [])) by apply not_elem_of_nil.
      by rewrite orb_false_r.
    + rewrite IH. by rewrite Hor.
Qed.

Lemma DeleteSimpleDBDomain_run `{aws.SDK} domainName region svc :
  aws.session_NewSession region = Ok svc →
  aws.DeleteSimpleDBDomain domainName region =
    match aws.listErr svc with
    | Some e => Some (Some e, [])
    | None =>
      if bool_decide (domainName ∈ aws.listed svc)
      then Some (aws.deleteErr svc domainName, [domainName])
      else Some (Some ("SimpleDB domain " +:+ aws.fmt_q domainName
                       +:+ " does not exist"), [])
    end.
Proof.
  intros Hs. unfold aws.DeleteSimpleDBDomain, aws.newSession. rewrite Hs.
  unfold aws.ListDomainsPages. rewrite eachPage_scan. cbn [orb].
  fold (aws.listed svc).
  destruct (aws.listErr svc); [reflexivity|].
  destruct (bool_decide _); reflexivity.
Qed.

(** C9: for a domain name that the paged listing does not hold,
    DeleteSimpleDBDomain returns an error and calls DeleteDomain not at
    all; the error is the "does not exist" one whenever the listing
    itself went through. Whenever DeleteDomain is called, it is called
    once, with that name, after a complete listing that holds the name. *)
Theorem DeleteSimpleDBDomain_checks_first `{aws.SDK} domainName region svc :
  aws.session_NewSession region = Ok svc →
  (domainName ∉ aws.listed svc →
   ∃ e, aws.DeleteSimpleDBDomain domainName region = Some (Some e, [])
        ∧ (aws.listErr svc = None →
           e = "SimpleDB domain " +:+ aws.fmt_q domainName +:+ " does not exist"))
  ∧ (∀ r calls,
       aws.DeleteSimpleDBDomain domainName region = Some (r, calls) →
       calls ≠ [] →
       calls = [domainName] ∧ domainName ∈ aws.listed svc ∧ aws.listErr svc = None
       ∧ r = aws.deleteErr svc domainName).
Proof.
  intros Hs. rewrite (DeleteSimpleDBDomain_run _ _ _ Hs). split.
  - intros Hnot. rewrite (bool_decide_eq_false_2 _ Hnot).
    destruct (aws.listErr svc) as [e|].
    + exists e. split; [reflexivity|done].
    + eexists. split; [reflexivity|done].
  - intros r calls Hrun Hcalls.
    destruct (aws.listErr svc) as [e|]; [by injection Hrun as <- <-|].
    destruct (decide (domainName ∈ aws.listed svc)) as [Hin|Hnot].
    + rewrite (bool_decide_eq_true_2 _ Hin) in Hrun. by injection Hrun as <- <-.
    + rewrite (bool_decide_eq_false_2 _ Hnot) in Hrun. by injection Hrun as <- <-.
Qed.

Lemma DeleteSimpleDBDomain_checks_first_witness :
  ∃ e,
    aws.DeleteSimpleDBDomain (K := sample.sdk) "missing" "eu-west-1" = Some (Some e, [])
    ∧ e = "SimpleDB domain " +:+ dquote +:+ "missing" +:+ dquote +:+ " does not exist".
Proof.
  destruct (DeleteSimpleDBDomain_checks_first (H := sample.sdk) "missing" "eu-west-1"
              sample.simpledb) as [Habsent _]; [reflexivity|].
  destruct Habsent as (e & Hrun & He).
  - vm_compute. intros Hin. repeat (apply elem_of_cons in Hin as [Hin|Hin]; [discriminate|]).
    by apply not_elem_of_nil in Hin.
  - exists e. split; [exact Hrun|]. rewrite He; reflexivity.
Defined.

Example DeleteSimpleDBDomain_listed :
  aws.DeleteSimpleDBDomain (K := sample.sdk) "third" "eu-west-1" = Some (None, ["third"]).
Proof. vm_compute. reflexivity. Qed.

(** ** The encoder's treatment of strings, on known vectors *)

Example json_string_vectors :
  (* ASCII and well-formed sequences of two, three and four bytes *)
  json_string "my-asg" = "my-asg"
  ∧ utf8.ValidString (string_of_list_ascii (map ascii_of_nat
      [104; 195; 169; 226; 130; 172; 240; 159; 152; 128]%nat)) = true
  (* a byte that opens no sequence *)
  ∧ json_string (string_of_list_ascii (map ascii_of_nat [97; 255; 98]%nat))
    = "a" +:+ utf8.RuneError +:+ "b"
  (* an overlong form: both bytes are replaced *)
  ∧ json_string (string_of_list_ascii (map ascii_of_nat [192; 128]%nat))
    = utf8.RuneError +:+ utf8.RuneError
  (* a surrogate half *)
  ∧ json_string (string_of_list_ascii (map ascii_of_nat [237; 160; 128]%nat))
    = utf8.RuneError +:+ utf8.RuneError +:+ utf8.RuneError
  (* a sequence cut short *)
  ∧ json_string (string_of_list_ascii (map ascii_of_nat [226; 130]%nat))
    = utf8.RuneError +:+ utf8.RuneError
  (* beyond U+10FFFF *)
  ∧ utf8.ValidString (string_of_list_ascii (map ascii_of_nat
      [244; 144; 128; 128]%nat)) = false
  (* U+FFFD itself is well-formed and kept *)
  ∧ json_string utf8.RuneError = utf8.RuneError.
Proof. repeat split; vm_compute; reflexivity. Qed.

(** ** The credentials encoding, on known vectors *)

Example base64_vectors :
  base64.EncodeToString "user:pass" = "dXNlcjpwYXNz"
  ∧ base64.EncodeToString "a:b" = "YTpi"
  ∧ base64.EncodeToString "Aladdin:open sesame" = "QWxhZGRpbjpvcGVuIHNlc2FtZQ=="
  ∧ base64.EncodeToString "ab" = "YWI=".
Proof. repeat split; vm_compute; reflexivity. Qed.

(** * Further properties of the code *)

(** ** Configuration resolution, continued *)

Lemma prefix_append (p s t : string) :
  String.prefix p s = true → String.prefix p (s +:+ t) = true.
Proof.
  revert s. induction p as [|a p IH]; intros s; [intros _; by destruct (s +:+ t)|].
  destruct s as [|b s]; [done|].
  change (String b s +:+ t) with (String b (s +:+ t)).
  cbn [String.prefix]. destruct (ascii_dec a b); [apply IH|done].
Qed.

Lemma resolve_has_scheme def cfg :
  strings_HasPrefix (Config.Endpoint (resolve def cfg)) "http" = true.
Proof.
  unfold resolve. cbn [Config.Endpoint].
  generalize (if bool_decide (Config.Endpoint cfg = "") then Config.Endpoint def
              else Config.Endpoint cfg).
  intros e. destruct (strings_HasPrefix e "http") eqn:Hp; [exact Hp|].
  apply (prefix_append "http" "http://"). reflexivity.
Qed.

Lemma default_twice_string (d x : string) :
  (if bool_decide ((if bool_decide (x = "") then d else x) = "") then d
   else if bool_decide (x = "") then d else x)
  = (if bool_decide (x = "") then d else x).
Proof.
  destruct (bool_decide (x = "")) eqn:Hx; [by destruct (bool_decide (d = ""))|].
  by rewrite Hx.
Qed.

Lemma default_twice_pointer {X} (d x : option X) :
  (if bool_decide ((if bool_decide (x = None) then d else x) = None) then d
   else if bool_decide (x = None) then d else x)
  = (if bool_decide (x = None) then d else x).
Proof.
  destruct (bool_decide (x = None)) eqn:Hx; [by destruct (bool_decide (d = None))|].
  by rewrite Hx.
Qed.

Lemma resolve_idempotent def cfg : resolve def (resolve def cfg) = resolve def cfg.
Proof.
  pose proof (resolve_has_scheme def cfg) as Hs.
  pose proof (HasPrefix_http_nonempty _ Hs) as Hne.
  unfold resolve at 1.
  rewrite (bool_decide_eq_false_2 _ Hne), Hs.
  destruct cfg as [e r u p a t]. unfold resolve.
  cbn [Config.Endpoint Config.Region Config.Username Config.Password
       Config.UserAgent Config.HTTPClient].
  f_equal.
  - apply default_twice_string.
  - apply default_twice_string.
  - apply default_twice_string.
  - apply default_twice_pointer.
Qed.

(** X1: NewClient is idempotent: run a second time on the same pointer,
    it returns the same client and leaves the world as the first run
    left it. *)
Theorem NewClient_idempotent `{Platform} c w cfg :
  heap w !! c = Some cfg →
  ∃ r w', NewClient c w = Some (r, w') ∧ NewClient c w' = Some (r, w').
Proof.
  intros Hc. rewrite (NewClient_run c w cfg Hc). eexists _, _.
  split; [reflexivity|].
  erewrite NewClient_run by (cbn [heap]; apply lookup_insert_eq).
  cbn [heap sent]. by rewrite insert_insert_eq, resolve_idempotent.
Qed.

Lemma NewClient_idempotent_witness :
  ∃ r w',
    NewClient (P := sample.platform) sample.p1 sample.w_blank = Some (r, w')
    ∧ NewClient (P := sample.platform) sample.p1 w' = Some (r, w').
Proof.
  apply (NewClient_idempotent (H := sample.platform) sample.p1 sample.w_blank
           sample.blank).
  reflexivity.
Defined.

(** X2: a configuration whose endpoint starts with http and whose
    username, password, user agent and transport handle are all set is
    left exactly as it is, whatever the environment holds. *)
Theorem NewClient_keeps_complete `{Platform} c w cfg :
  heap w !! c = Some cfg →
  strings_HasPrefix (Config.Endpoint cfg) "http" = true →
  Config.Username cfg ≠ "" →
  Config.Password cfg ≠ "" →
  Config.UserAgent cfg ≠ "" →
  Config.HTTPClient cfg ≠ None →
  NewClient c w = Some ((Client.mk c, None), w).
Proof.
  intros Hc He Hu Hp Ha Ht. rewrite (NewClient_run c w cfg Hc).
  assert (Hr : resolve DefaultConfig cfg = cfg).
  { unfold resolve.
    rewrite (bool_decide_eq_false_2 _ (HasPrefix_http_nonempty _ He)), He.
    rewrite (bool_decide_eq_false_2 _ Hu), (bool_decide_eq_false_2 _ Hp),
      (bool_decide_eq_false_2 _ Ha), (bool_decide_eq_false_2 _ Ht).
    by destruct cfg. }
  rewrite Hr, (insert_id _ _ _ Hc). by destruct w.
Qed.

Lemma NewClient_keeps_complete_witness :
  NewClient (P := sample.platform) sample.p1 sample.w_full
  = Some ((Client.mk sample.p1, None), sample.w_full).
Proof.
  apply (NewClient_keeps_complete (H := sample.platform) sample.p1 sample.w_full
           sample.full); [reflexivity | reflexivity | discriminate..].
Defined.

Lemma DefaultConfig_Username `{Platform} :
  Config.Username DefaultConfig = os_Getenv "CHAOSMONKEY_USERNAME".
Proof.
  unfold DefaultConfig. cbv zeta.
  generalize (os_Getenv "CHAOSMONKEY_ENDPOINT"), (os_Getenv "CHAOSMONKEY_USERNAME"),
    (os_Getenv "CHAOSMONKEY_PASSWORD").
  intros e u p.
  destruct (decide (u = "")) as [->|Hu];
    [rewrite (bool_decide_eq_false_2 ("" ≠ "")) by tauto
    |rewrite (bool_decide_eq_true_2 _ Hu)];
    repeat (destruct (bool_decide _); cbn); reflexivity.
Qed.

Lemma DefaultConfig_Password `{Platform} :
  Config.Password DefaultConfig = os_Getenv "CHAOSMONKEY_PASSWORD".
Proof.
  unfold DefaultConfig. cbv zeta.
  generalize (os_Getenv "CHAOSMONKEY_ENDPOINT"), (os_Getenv "CHAOSMONKEY_USERNAME"),
    (os_Getenv "CHAOSMONKEY_PASSWORD").
  intros e u p.
  destruct (decide (p = "")) as [->|Hp];
    [rewrite (bool_decide_eq_false_2 ("" ≠ "")) by tauto
    |rewrite (bool_decide_eq_true_2 _ Hp)];
    repeat (destruct (bool_decide _); cbn); reflexivity.
Qed.

(** X3: the order of resolution: NewClient keeps the caller's username
    and password when they are not empty and takes the values of
    CHAOSMONKEY_USERNAME and CHAOSMONKEY_PASSWORD otherwise (empty when
    unset); an empty user agent becomes "chaosmonkey Go library" and a
    nil transport handle becomes http.DefaultClient. *)
Theorem NewClient_resolution_order `{Platform} c w cfg :
  heap w !! c = Some cfg →
  ∃ r w' cfg',
    NewClient c w = Some (r, w')
    ∧ heap w' !! c = Some cfg'
    ∧ Config.Username cfg'
      = (if bool_decide (Config.Username cfg = "")
         then os_Getenv "CHAOSMONKEY_USERNAME" else Config.Username cfg)
    ∧ Config.Password cfg'
      = (if bool_decide (Config.Password cfg = "")
         then os_Getenv "CHAOSMONKEY_PASSWORD" else Config.Password cfg)
    ∧ Config.UserAgent cfg'
      = (if bool_decide (Config.UserAgent cfg = "")
         then "chaosmonkey Go library" else Config.UserAgent cfg)
    ∧ Config.HTTPClient cfg'
      = (if bool_decide (Config.HTTPClient cfg = None)
         then Some http_DefaultClient else Config.HTTPClient cfg).
Proof.
  intros Hc. rewrite (NewClient_run c w cfg Hc). eexists _, _, _.
  split; [reflexivity|]. split; [apply lookup_insert_eq|].
  unfold resolve. cbn [Config.Username Config.Password Config.UserAgent Config.HTTPClient].
  by rewrite DefaultConfig_Username, DefaultConfig_Password, DefaultConfig_UserAgent,
    DefaultConfig_HTTPClient.
Qed.

Lemma NewClient_resolution_order_witness :
  ∃ r w' cfg',
    NewClient (P := sample.with_credentials) sample.p1 sample.w_secure = Some (r, w')
    ∧ heap w' !! sample.p1 = Some cfg'
    ∧ Config.Username cfg' = "monkey"
    ∧ Config.Password cfg' = "secret"
    ∧ Config.UserAgent cfg' = "chaosmonkey Go library"
    ∧ Config.HTTPClient cfg' = Some sample.server.
Proof.
  apply (NewClient_resolution_order (H := sample.with_credentials) sample.p1
           sample.w_secure sample.secure).
  reflexivity.
Defined.

(** X4: DefaultConfig reads three environment variables and nothing
    else: its endpoint is CHAOSMONKEY_ENDPOINT when that is set and not
    empty and "http://127.0.0.1:8080" otherwise, taken as it is (no scheme
    is added here) and never empty; its credentials are the two
    variables, empty when unset; it has no region, the library's user
    agent and the default transport. *)
Theorem DefaultConfig_fields `{Platform} :
  DefaultConfig
  = Config.mk (chosenEndpoint environ "") ""
      (os_Getenv "CHAOSMONKEY_USERNAME") (os_Getenv "CHAOSMONKEY_PASSWORD")
      "chaosmonkey Go library" (Some http_DefaultClient)
  ∧ Config.Endpoint DefaultConfig ≠ "".
Proof.
  split.
  - rewrite <- DefaultConfig_Endpoint, <- DefaultConfig_Username,
      <- DefaultConfig_Password.
    unfold DefaultConfig. repeat (destruct (bool_decide _); cbn); reflexivity.
  - rewrite DefaultConfig_Endpoint. unfold chosenEndpoint.
    rewrite (bool_decide_eq_false_2 ("" ≠ "")) by tauto.
    destruct (environ !! "CHAOSMONKEY_ENDPOINT") as [v|]; [|done].
    case_bool_decide; done.
Qed.

(** ** The operations, continued *)

Lemma TriggerEvent_rejected `{Platform} c w cfg group strategy e :
  heap w !! Client.config c = Some cfg →
  http_NewRequest_check "POST" (Config.Endpoint cfg +:+ APIPath) = Some e →
  TriggerEvent c group strategy w = Some (Err e, w).
Proof.
  intros Hc Hno. unfold TriggerEvent. rewrite !(get_bound _ _ _ _ _ Hc).
  unfold json_Marshal. unfold bind at 1.
  by rewrite (sendRequest_rejected _ _ _ _ _ _ _ Hno).
Qed.

Lemma events_rejected `{Platform} c w cfg since e :
  heap w !! Client.config c = Some cfg →
  http_NewRequest_check "GET"
    (Config.Endpoint cfg +:+ APIPath +:+ "?since=" +:+ fmt_d since) = Some e →
  events c since w = Some (Err e, w).
Proof.
  intros Hc Hno. unfold events. rewrite !(get_bound _ _ _ _ _ Hc).
  unfold bind at 1. by rewrite (sendRequest_rejected _ _ _ _ _ _ _ Hno).
Qed.

(** X6: when http.NewRequest rejects the URL, TriggerEvent and
    EventsSince return its error and leave the world as it was: nothing
    is handed to the transport, whether or not a transport handle is
    set. *)
Theorem rejected_url_sends_nothing `{Platform} c w cfg :
  heap w !! Client.config c = Some cfg →
  (∀ group strategy e,
     http_NewRequest_check "POST" (Config.Endpoint cfg +:+ APIPath) = Some e →
     TriggerEvent c group strategy w = Some (Err e, w))
  ∧ (∀ t e,
       http_NewRequest_check "GET"
         (Config.Endpoint cfg +:+ APIPath +:+ "?since="
          +:+ fmt_d (wrap64 (time.sec t * 1000))) = Some e →
       EventsSince c t w = Some (Err e, w)).
Proof.
  intros Hc. split.
  - intros group strategy e Hno. by apply (TriggerEvent_rejected c w cfg).
  - intros t e Hno. unfold EventsSince. by apply (events_rejected c w cfg).
Qed.

Lemma rejected_url_sends_nothing_witness :
  TriggerEvent (P := sample.strict) sample.c1 "my-asg" StrategyBurnCPU sample.w_ready
  = Some (Err "parse: invalid URL", sample.w_ready)
  ∧ EventsSince (P := sample.strict) sample.c1 sample.t_1500ms sample.w_ready
    = Some (Err "parse: invalid URL", sample.w_ready).
Proof.
  destruct (rejected_url_sends_nothing (H := sample.strict) sample.c1 sample.w_ready
              sample.ready) as [Hpost Hget]; [reflexivity|].
  split; [apply Hpost | apply Hget]; reflexivity.
Defined.

(** Either the URL is rejected and nothing is sent, or one request is. *)
Lemma TriggerEvent_outcome `{Platform} c w cfg cl group strategy :
  heap w !! Client.config c = Some cfg →
  Config.HTTPClient cfg = Some cl →
  ∃ r new,
    TriggerEvent c group strategy w = Some (r, mkWorld (heap w) (sent w ++ new))
    ∧ (new = []
       ∨ ∃ req, new = [req] ∧ http.Method req = "POST"
                ∧ http.URL req = Config.Endpoint cfg +:+ APIPath).
Proof.
  intros Hc Hcl.
  destruct (http_NewRequest_check "POST" (Config.Endpoint cfg +:+ APIPath))
    as [e|] eqn:Hchk.
  - rewrite (TriggerEvent_rejected c w cfg group strategy e Hc Hchk).
    exists (Err e), []. rewrite app_nil_r. destruct w.
    split; [reflexivity|by left].
  - destruct (TriggerEvent_run c w cfg cl group strategy Hc Hcl Hchk)
      as (body & _ & Hrun).
    rewrite Hrun. cbv zeta. eexists _, [_]. split; [reflexivity|].
    right. eexists. split; [reflexivity|].
    destruct (setHeaders_frame (Config.Username cfg) (Config.Password cfg)
                (Config.UserAgent cfg)
                (http.mkRequest "POST" (Config.Endpoint cfg +:+ APIPath) (Some body) []))
      as (Hm & Hu & _).
    by rewrite Hm, Hu.
Qed.

(** X7: with a configuration that has a transport handle, TriggerEvent
    never panics, leaves the heap of configurations as it was, and hands
    the transport at most one request, a POST to the endpoint followed by
    the API path. *)
Theorem TriggerEvent_single_exchange `{Platform} c w cfg cl group strategy :
  heap w !! Client.config c = Some cfg →
  Config.HTTPClient cfg = Some cl →
  ∃ r new,
    TriggerEvent c group strategy w = Some (r, mkWorld (heap w) (sent w ++ new))
    ∧ (length new ≤ 1)%nat
    ∧ Forall (λ req, http.Method req = "POST"
                     ∧ http.URL req = Config.Endpoint cfg +:+ APIPath) new.
Proof.
  intros Hc Hcl.
  destruct (TriggerEvent_outcome c w cfg cl group strategy Hc Hcl)
    as (r & new & Hrun & [->|(req & -> & Hm & Hu)]);
    exists r; eexists; (split; [exact Hrun|]).
  - split; [cbn; lia|constructor].
  - split; [cbn; lia|]. by repeat constructor.
Qed.

Lemma TriggerEvent_single_exchange_witness :
  ∃ r new,
    TriggerEvent (P := sample.platform) sample.c1 "my-asg" StrategyBurnCPU sample.w_offline
    = Some (r, mkWorld (heap sample.w_offline) (sent sample.w_offline ++ new))
    ∧ (length new ≤ 1)%nat
    ∧ Forall (λ req, http.Method req = "POST"
                     ∧ http.URL req = "http://127.0.0.1:8080/simianarmy/api/v1/chaos") new.
Proof.
  apply (TriggerEvent_single_exchange (H := sample.platform) sample.c1
           sample.w_offline sample.offline sample.unreachable);
    reflexivity.
Defined.

Lemma events_outcome `{Platform} c w cfg cl since :
  heap w !! Client.config c = Some cfg →
  Config.HTTPClient cfg = Some cl →
  ∃ r new,
    events c since w = Some (r, mkWorld (heap w) (sent w ++ new))
    ∧ (new = []
       ∨ ∃ req, new = [req] ∧ http.Method req = "GET"
                ∧ http.Body req = None
                ∧ http.URL req
                  = Config.Endpoint cfg +:+ APIPath +:+ "?since=" +:+ fmt_d since).
Proof.
  intros Hc Hcl.
  destruct (http_NewRequest_check "GET"
              (Config.Endpoint cfg +:+ APIPath +:+ "?since=" +:+ fmt_d since))
    as [e|] eqn:Hchk.
  - rewrite (events_rejected c w cfg since e Hc Hchk).
    exists (Err e), []. rewrite app_nil_r. destruct w.
    split; [reflexivity|by left].
  - rewrite (events_run c w cfg cl since Hc Hcl Hchk).
    cbv zeta. eexists _, [_]. split; [reflexivity|].
    right. eexists. split; [reflexivity|].
    destruct (setHeaders_frame (Config.Username cfg) (Config.Password cfg)
                (Config.UserAgent cfg)
                (http.mkRequest "GET"
                   (Config.Endpoint cfg +:+ APIPath +:+ "?since=" +:+ fmt_d since)
                   None []))
      as (Hm & Hu & Hb).
    by rewrite Hm, Hu, Hb.
Qed.

(** X8: with a configuration that has a transport handle, events (and
    so Events and EventsSince) never panics, leaves the heap of
    configurations as it was, and hands the transport at most one
    request, a GET without a body whose URL ends in ?since= and the
    decimal of its argument. *)
Theorem events_single_exchange `{Platform} c w cfg cl since :
  heap w !! Client.config c = Some cfg →
  Config.HTTPClient cfg = Some cl →
  ∃ r new,
    events c since w = Some (r, mkWorld (heap w) (sent w ++ new))
    ∧ (length new ≤ 1)%nat
    ∧ Forall (λ req, http.Method req = "GET"
                     ∧ http.Body req = None
                     ∧ http.URL req
                       = Config.Endpoint cfg +:+ APIPath +:+ "?since=" +:+ fmt_d since)
             new.
Proof.
  intros Hc Hcl.
  destruct (events_outcome c w cfg cl since Hc Hcl)
    as (r & new & Hrun & [->|(req & -> & Hm & Hb & Hu)]);
    exists r; eexists; (split; [exact Hrun|]).
  - split; [cbn; lia|constructor].
  - split; [cbn; lia|]. by repeat constructor.
Qed.

Lemma events_single_exchange_witness :
  ∃ r new,
    events (P := sample.platform) sample.c1 1000 sample.w_reader
    = Some (r, mkWorld (heap sample.w_reader) (sent sample.w_reader ++ new))
    ∧ (length new ≤ 1)%nat
    ∧ Forall (λ req, http.Method req = "GET"
                     ∧ http.Body req = None
                     ∧ http.URL req
                       = "http://127.0.0.1:8080/simianarmy/api/v1/chaos?since=1000")
             new.
Proof.
  apply (events_single_exchange (H := sample.platform) sample.c1 sample.w_reader
           sample.reader sample.history 1000);
    reflexivity.
Defined.

(** X5: a client made by NewClient from any configuration never panics
    in TriggerEvent or EventsSince, and the URL of every request it sends
    starts with http. *)
Theorem NewClient_client_is_usable `{Platform} c w cfg :
  heap w !! c = Some cfg →
  ∃ cl w',
    NewClient c w = Some ((cl, None), w')
    ∧ (∀ group strategy,
         ∃ r new,
           TriggerEvent cl group strategy w'
           = Some (r, mkWorld (heap w') (sent w' ++ new))
           ∧ Forall (λ req, strings_HasPrefix (http.URL req) "http" = true) new)
    ∧ (∀ t,
         ∃ r new,
           EventsSince cl t w' = Some (r, mkWorld (heap w') (sent w' ++ new))
           ∧ Forall (λ req, strings_HasPrefix (http.URL req) "http" = true) new).
Proof.
  intros Hc. rewrite (NewClient_run c w cfg Hc). eexists _, _.
  split; [reflexivity|].
  set (cfg' := resolve DefaultConfig cfg).
  set (w' := mkWorld (<[c := cfg']> (heap w)) (sent w)).
  assert (Hc' : heap w' !! Client.config (Client.mk c) = Some cfg')
    by apply lookup_insert_eq.
  assert (Hcl : ∃ cl, Config.HTTPClient cfg' = Some cl).
  { unfold cfg', resolve. cbn [Config.HTTPClient]. case_bool_decide as Hn.
    - rewrite DefaultConfig_HTTPClient. by eexists.
    - destruct (Config.HTTPClient cfg); [by eexists|done]. }
  destruct Hcl as [cl Hcl].
  pose proof (resolve_has_scheme DefaultConfig cfg) as Hs. fold cfg' in Hs.
  split.
  - intros group strategy.
    destruct (TriggerEvent_outcome (Client.mk c) w' cfg' cl group strategy
                Hc' Hcl) as (r & new & Hrun & [->|(req & -> & _ & Hu)]);
      exists r; eexists; (split; [exact Hrun|]); [constructor|].
    constructor; [|constructor]. rewrite Hu. by apply prefix_append.
  - intros t. unfold EventsSince.
    destruct (events_outcome (Client.mk c) w' cfg' cl
                (wrap64 (time.Time_Unix (time.UTC t) * 1000)) Hc' Hcl)
      as (r & new & Hrun & [->|(req & -> & _ & _ & Hu)]);
      exists r; eexists; (split; [exact Hrun|]); [constructor|].
    constructor; [|constructor]. rewrite Hu. by apply prefix_append.
Qed.

Lemma NewClient_client_is_usable_witness :
  ∃ cl w',
    NewClient (P := sample.platform) sample.p1 sample.w_blank = Some ((cl, None), w')
    ∧ ∃ r new,
        TriggerEvent (P := sample.platform) cl "my-asg" StrategyBurnCPU w'
        = Some (r, mkWorld (heap w') (sent w' ++ new))
        ∧ Forall (λ req, strings_HasPrefix (http.URL req) "http" = true) new.
Proof.
  destruct (NewClient_client_is_usable (H := sample.platform) sample.p1 sample.w_blank
              sample.blank) as (cl & w' & Hnew & Hpost & _); [reflexivity|].
  exists cl, w'. split; [exact Hnew|]. apply Hpost.
Defined.

(** X9: when the transport fails, sendRequest returns the transport's
    error as it is; the request was handed over once, and the
    configuration is untouched. *)
Theorem sendRequest_transport_error `{Platform} {A} c w cfg cl method url body
    (out : string → result A) e :
  heap w !! Client.config c = Some cfg →
  Config.HTTPClient cfg = Some cl →
  http_NewRequest_check method url = None →
  http.Do cl (setHeaders (Config.Username cfg) (Config.Password cfg)
                (Config.UserAgent cfg) (http.mkRequest method url body []))
  = Err e →
  ∃ w', sendRequest c method url body out w = Some (Err e, w')
        ∧ heap w' = heap w ∧ length (sent w') = S (length (sent w)).
Proof.
  intros Hc Hcl Hok Hdo. rewrite (sendRequest_run _ _ _ _ _ _ _ _ Hc Hcl Hok).
  cbv zeta. rewrite Hdo. eexists. split; [reflexivity|].
  split; [reflexivity|]. cbn [sent]. rewrite length_app. cbn. lia.
Qed.

Lemma sendRequest_transport_error_witness :
  ∃ w',
    sendRequest (P := sample.platform) sample.c1 "GET" "http://127.0.0.1:8080/" None
      (json_Decode_APIResponses (Platform := sample.platform)) sample.w_offline
    = Some (Err "dial tcp: connection refused", w')
    ∧ heap w' = heap sample.w_offline
    ∧ length (sent w') = S (length (sent sample.w_offline)).
Proof.
  apply (sendRequest_transport_error (H := sample.platform) sample.c1 sample.w_offline
           sample.offline sample.unreachable "GET" "http://127.0.0.1:8080/" None
           (json_Decode_APIResponses (Platform := sample.platform)));
    reflexivity.
Defined.

(** X10: with status 200 the result of sendRequest is what the decoder
    makes of the body, its error included: a body that does not decode
    gives the decoder's error, not an "HTTP error", and decodeError is
    not consulted. *)
Theorem sendRequest_status_ok `{Platform} {A} c w cfg cl method url body
    (out : string → result A) resp :
  heap w !! Client.config c = Some cfg →
  Config.HTTPClient cfg = Some cl →
  http_NewRequest_check method url = None →
  http.Do cl (setHeaders (Config.Username cfg) (Config.Password cfg)
                (Config.UserAgent cfg) (http.mkRequest method url body []))
  = Ok resp →
  http.StatusCode resp = 200 →
  ∃ w', sendRequest c method url body out w = Some (out (http.RespBody resp), w').
Proof.
  intros Hc Hcl Hok Hdo Hst. rewrite (sendRequest_run _ _ _ _ _ _ _ _ Hc Hcl Hok).
  cbv zeta. rewrite Hdo.
  rewrite bool_decide_eq_false_2 by (intros Hne; by apply Hne).
  by eexists.
Qed.

Lemma sendRequest_status_ok_witness :
  ∃ w',
    sendRequest (P := sample.platform) sample.c1 "POST" "http://127.0.0.1:8080/" None
      (json_Decode_APIResponses (Platform := sample.platform)) sample.w_ready
    = Some (Err "invalid character", w').
Proof.
  apply (sendRequest_status_ok (H := sample.platform) sample.c1 sample.w_ready
           sample.ready sample.server "POST" "http://127.0.0.1:8080/" None
           (json_Decode_APIResponses (Platform := sample.platform))
           (http.mkResponse "200 OK" 200 "event"));
    reflexivity.
Defined.

(** X11: when the answer has status 200 and its body decodes as a list
    of wire responses, events returns one Event per response, converted
    by ToEvent, in the order of the answer; an empty list gives an empty
    list and no error. *)
Theorem events_in_order `{Platform} c w cfg cl since resp rs :
  heap w !! Client.config c = Some cfg →
  Config.HTTPClient cfg = Some cl →
  http_NewRequest_check "GET"
    (Config.Endpoint cfg +:+ APIPath +:+ "?since=" +:+ fmt_d since) = None →
  http.Do cl (setHeaders (Config.Username cfg) (Config.Password cfg)
                (Config.UserAgent cfg)
                (http.mkRequest "GET"
                   (Config.Endpoint cfg +:+ APIPath +:+ "?since=" +:+ fmt_d since)
                   None []))
  = Ok resp →
  http.StatusCode resp = 200 →
  json_Decode_APIResponses (http.RespBody resp) = Ok rs →
  ∃ evs w',
    events c since w = Some (Ok evs, w')
    ∧ evs = map ToEvent rs
    ∧ length evs = length rs
    ∧ (rs = [] → evs = []).
Proof.
  intros Hc Hcl Hok Hdo Hst Hdec. rewrite (events_run c w cfg cl since Hc Hcl Hok).
  cbv zeta. rewrite Hdo.
  rewrite bool_decide_eq_false_2 by (intros Hne; by apply Hne).
  rewrite Hdec. eexists _, _. split; [reflexivity|].
  split; [reflexivity|]. split; [apply length_map|]. by intros ->.
Qed.

Lemma events_in_order_witness :
  ∃ evs w',
    events (P := sample.platform) sample.c1 0 sample.w_reader = Some (Ok evs, w')
    ∧ evs = [ToEvent sample.event_burn; ToEvent sample.event_early].
Proof.
  destruct (events_in_order (H := sample.platform) sample.c1 sample.w_reader
              sample.reader sample.history 0 (http.mkResponse "200 OK" 200 "events")
              [sample.event_burn; sample.event_early])
    as (evs & w' & Hrun & Hevs & _); [reflexivity..|].
  exists evs, w'. split; [exact Hrun|exact Hevs].
Defined.

(** X12: the body TriggerEvent sends carries the region of the
    configuration the way the JSON encoder writes a string (as it is
    when it is valid UTF-8, every byte outside a well-formed sequence
    replaced by U+FFFD otherwise), left out when it is empty; its members
    are among chaosType, eventType, groupName, groupType and region, each
    at most once. *)
Theorem TriggerEvent_body_region `{Platform} c w cfg cl group strategy :
  heap w !! Client.config c = Some cfg →
  Config.HTTPClient cfg = Some cl →
  http_NewRequest_check "POST" (Config.Endpoint cfg +:+ APIPath) = None →
  ∃ r req body,
    TriggerEvent c group strategy w = Some (r, mkWorld (heap w) (sent w ++ [req]))
    ∧ http.Body req = Some body
    ∧ member "region" body
      = (if bool_decide (Config.Region cfg = "") then None
         else Some (json_string (Config.Region cfg)))
    ∧ (utf8.ValidString (Config.Region cfg) = true →
       member "region" body
       = (if bool_decide (Config.Region cfg = "") then None
          else Some (Config.Region cfg)))
    ∧ (∀ key, is_Some (member key body) →
         key ∈ ["chaosType"; "eventType"; "groupName"; "groupType"; "region"])
    ∧ NoDup body.*1.
Proof.
  intros Hc Hcl Hok.
  destruct (TriggerEvent_run c w cfg cl group strategy Hc Hcl Hok) as (body & Hb & Hrun).
  rewrite Hrun. cbv zeta.
  destruct (setHeaders_frame (Config.Username cfg) (Config.Password cfg)
              (Config.UserAgent cfg)
              (http.mkRequest "POST" (Config.Endpoint cfg +:+ APIPath) (Some body) []))
    as (_ & _ & Hbd).
  eexists _, _, body. split; [reflexivity|]. rewrite Hbd. split; [reflexivity|].
  destruct (json_Marshal_members strategy group (Config.Region cfg))
    as (body' & Hb' & _ & _ & _ & _ & Hr).
  rewrite Hb in Hb'. injection Hb' as <-.
  split; [exact Hr|].
  split; [intros Hv; by rewrite Hr, (json_string_valid _ Hv)|].
  clear Hr. unfold json_Marshal in Hb. injection Hb as <-.
  cbn [APIRequest.ChaosType APIRequest.EventType APIRequest.GroupName
       APIRequest.GroupType APIRequest.Region].
  unfold omitempty.
  generalize (json_string group), (json_string strategy),
    (json_string (Config.Region cfg)), (json_string "CHAOS_TERMINATION"),
    (json_string "ASG").
  intros vg vs vr ve vt.
  repeat case_decide; cbn [app];
    (split; [|cbn; compute_done]).
  all: intros key [v Hv]; cbn in Hv.
  all: repeat (case_decide;
               [subst key; compute_done|]).
  all: discriminate.
Qed.

Lemma TriggerEvent_body_region_witness :
  ∃ r req body,
    TriggerEvent (P := sample.platform) sample.c1 "my-asg" StrategyBurnCPU sample.w_offline
    = Some (r, mkWorld (heap sample.w_offline) (sent sample.w_offline ++ [req]))
    ∧ http.Body req = Some body
    ∧ member "region" body = Some "eu-west-1".
Proof.
  destruct (TriggerEvent_body_region (H := sample.platform) sample.c1 sample.w_offline
              sample.offline sample.unreachable "my-asg" StrategyBurnCPU)
    as (r & req & body & Hrun & Hb & _ & Hreg & _); [reflexivity..|].
  exists r, req, body. split; [exact Hrun|]. split; [exact Hb|].
  apply Hreg. reflexivity.
Defined.

(** ** The two conversions of time, together *)

Lemma rem_1000_bounds (T : Z) :
  T = 1000 * (T ÷ 1000) + Z.rem T 1000
  ∧ (0 <= T → 0 <= Z.rem T 1000 < 1000)
  ∧ (T <= 0 → - 1000 < Z.rem T 1000 <= 0).
Proof.
  split; [apply Z.quot_rem'|].
  split; intros HT; Z.to_euclidean_division_equations; lia.
Qed.

Lemma whole_seconds_in_range (T : Z) :
  int64_range T →
  (T ÷ 1000) * 1000 = T - Z.rem T 1000 ∧ int64_range (T - Z.rem T 1000).
Proof.
  unfold int64_range. intros HT.
  destruct (rem_1000_bounds T) as (Hqr & Hpos & Hneg).
  split; [lia|]. destruct (Z_le_gt_dec 0 T); lia.
Qed.

(** X13: ToEvent followed by EventsSince: for an event time T within
    int64, EventsSince at the TriggeredAt of the converted event asks for
    the events since T less its remainder by 1000; that is at most T (and
    less than a second before it) when T is not negative, and at least T
    when T is not positive. *)
Theorem EventsSince_of_TriggeredAt `{Platform} c w (resp : APIResponse.t) :
  int64_range (APIResponse.EventTime resp) →
  EventsSince c (Event.TriggeredAt (ToEvent resp)) w
  = events c (APIResponse.EventTime resp - Z.rem (APIResponse.EventTime resp) 1000) w
  ∧ (0 <= APIResponse.EventTime resp →
     APIResponse.EventTime resp - 999
     <= APIResponse.EventTime resp - Z.rem (APIResponse.EventTime resp) 1000
     <= APIResponse.EventTime resp)
  ∧ (APIResponse.EventTime resp <= 0 →
     APIResponse.EventTime resp
     <= APIResponse.EventTime resp - Z.rem (APIResponse.EventTime resp) 1000
     <= APIResponse.EventTime resp + 999).
Proof.
  intros HT. destruct (whole_seconds_in_range _ HT) as [Hq Hr].
  split; [|split].
  - unfold EventsSince, ToEvent.
    cbn [Event.TriggeredAt time.UTC time.Unix time.Time_Unix time.sec Z.ltb Z.leb
         orb Z.compare].
    by rewrite Hq, wrap64_id.
  - intros Hpos. destruct (rem_1000_bounds (APIResponse.EventTime resp)) as (_ & Hp & _).
    lia.
  - intros Hneg. destruct (rem_1000_bounds (APIResponse.EventTime resp)) as (_ & _ & Hn).
    lia.
Qed.

Lemma EventsSince_of_TriggeredAt_witness :
  EventsSince (P := sample.platform) sample.c1
    (Event.TriggeredAt (ToEvent sample.event_burn)) sample.w_reader
  = events (P := sample.platform) sample.c1 1000 sample.w_reader.
Proof.
  destruct (EventsSince_of_TriggeredAt (H := sample.platform) sample.c1 sample.w_reader
              sample.event_burn) as [Heq _].
  - unfold int64_range. cbn. lia.
  - exact Heq.
Defined.

(** X14: for an instant whose seconds lie within 9223372036854775 of
    the epoch, the product in EventsSince does not overflow: the
    parameter is the seconds times 1000, at most the instant in
    milliseconds and less than a second below it. *)
Theorem EventsSince_parameter_bounds `{Platform} c w (t : time.Time) :
  0 <= time.nsec t < 1000000000 →
  - 9223372036854775 <= time.sec t <= 9223372036854775 →
  EventsSince c t w = events c (time.sec t * 1000) w
  ∧ time.sec t * 1000 <= time.Time_UnixMilli t < time.sec t * 1000 + 1000.
Proof.
  intros Hn Hs. split.
  - unfold EventsSince. cbn [time.UTC time.Time_Unix time.sec].
    rewrite wrap64_id; [done|]. unfold int64_range. lia.
  - unfold time.Time_UnixMilli.
    assert (0 <= time.nsec t / 1000000 < 1000); [|lia].
    split; [apply Z.div_pos; lia|apply Z.div_lt_upper_bound; lia].
Qed.

Lemma EventsSince_parameter_bounds_witness :
  EventsSince (P := sample.platform) sample.c1 sample.t_1500ms sample.w_reader
  = events (P := sample.platform) sample.c1 1000 sample.w_reader
  ∧ 1000 <= time.Time_UnixMilli sample.t_1500ms < 2000.
Proof.
  apply (EventsSince_parameter_bounds (H := sample.platform) sample.c1 sample.w_reader
           sample.t_1500ms); cbn; lia.
Defined.

(** X15: the error decodeError makes never has an empty text: it is
    either "HTTP error: " followed by the status line, or the non-empty
    message of the decoded body. *)
Theorem decodeError_nonempty `{Platform} (resp : http.Response) :
  decodeError resp ≠ ""
  ∧ (decodeError resp = "HTTP error: " +:+ http.Status resp
     ∨ ∃ r, json_Decode_APIResponse (http.RespBody resp) = Ok r
            ∧ decodeError resp = APIResponse.Message r).
Proof.
  unfold decodeError.
  destruct (json_Decode_APIResponse (http.RespBody resp)) as [r|e].
  - case_bool_decide as Hm.
    + split; [exact Hm|]. right. by exists r.
    + split; [done|]. by left.
  - split; [done|]. by left.
Qed.

(** X16: the client reads the configuration when it is called: after
    the caller has written another endpoint through the pointer,
    TriggerEvent sends its request to that endpoint as written, without
    the normalisation NewClient applies. *)
Theorem TriggerEvent_reads_config_at_call `{Platform} c w cfg cl group strategy e' :
  heap w !! Client.config c = Some cfg →
  Config.HTTPClient cfg = Some cl →
  http_NewRequest_check "POST" (e' +:+ APIPath) = None →
  ∃ r req,
    bind (set (Client.config c) (Config.set_Endpoint e'))
         (λ _, TriggerEvent c group strategy) w
    = Some (r, mkWorld (<[Client.config c := Config.set_Endpoint e' cfg]> (heap w))
                 (sent w ++ [req]))
    ∧ http.URL req = e' +:+ APIPath.
Proof.
  intros Hc Hcl Hok. unfold bind at 1, set. rewrite Hc.
  set (w' := mkWorld (<[Client.config c := Config.set_Endpoint e' cfg]> (heap w)) (sent w)).
  assert (Hc' : heap w' !! Client.config c = Some (Config.set_Endpoint e' cfg))
    by apply lookup_insert_eq.
  destruct (TriggerEvent_run c w' (Config.set_Endpoint e' cfg) cl group strategy
              Hc' Hcl Hok) as (body & _ & Hrun).
  rewrite Hrun. cbv zeta. eexists _, _. split; [reflexivity|].
  destruct (setHeaders_frame
              (Config.Username (Config.set_Endpoint e' cfg))
              (Config.Password (Config.set_Endpoint e' cfg))
              (Config.UserAgent (Config.set_Endpoint e' cfg))
              (http.mkRequest "POST"
                 (Config.Endpoint (Config.set_Endpoint e' cfg) +:+ APIPath)
                 (Some body) [])) as (_ & Hu & _).
  by rewrite Hu.
Qed.

Lemma TriggerEvent_reads_config_at_call_witness :
  ∃ r req,
    bind (set sample.p1 (Config.set_Endpoint "chaos.internal:8080"))
         (λ _, TriggerEvent (P := sample.platform) sample.c1 "my-asg" StrategyBurnCPU)
         sample.w_ready
    = Some (r, mkWorld (<[sample.p1 := Config.set_Endpoint "chaos.internal:8080"
                                          sample.ready]> (heap sample.w_ready))
                 (sent sample.w_ready ++ [req]))
    ∧ http.URL req = "chaos.internal:8080/simianarmy/api/v1/chaos".
Proof.
  apply (TriggerEvent_reads_config_at_call (H := sample.platform) sample.c1
           sample.w_ready sample.ready sample.server "my-asg" StrategyBurnCPU
           "chaos.internal:8080"); reflexivity.
Defined.

(** ** The SimpleDB helper, continued *)

(** X17: when the listing goes through and holds the name, on whatever
    page and however often, DeleteSimpleDBDomain calls DeleteDomain once
    with that name and returns what DeleteDomain returns. *)
Theorem DeleteSimpleDBDomain_listed_deletes `{aws.SDK} domainName region svc :
  aws.session_NewSession region = Ok svc →
  aws.listErr svc = None →
  domainName ∈ aws.listed svc →
  aws.DeleteSimpleDBDomain domainName region
  = Some (aws.deleteErr svc domainName, [domainName]).
Proof.
  intros Hs Hl Hin. rewrite (DeleteSimpleDBDomain_run _ _ _ Hs), Hl.
  by rewrite (bool_decide_eq_true_2 _ Hin).
Qed.

Lemma DeleteSimpleDBDomain_listed_deletes_witness :
  aws.DeleteSimpleDBDomain (K := sample.sdk) "third" "eu-west-1"
  = Some (None, ["third"]).
Proof.
  apply (DeleteSimpleDBDomain_listed_deletes (H := sample.sdk) "third" "eu-west-1"
           sample.simpledb); [reflexivity | reflexivity | compute_done].
Defined.

(** X18: when the listing fails, DeleteSimpleDBDomain returns the
    listing's error and deletes nothing, also when a page delivered
    before the failure held the name. *)
Theorem DeleteSimpleDBDomain_listing_error `{aws.SDK} domainName region svc e :
  aws.session_NewSession region = Ok svc →
  aws.listErr svc = Some e →
  aws.DeleteSimpleDBDomain domainName region = Some (Some e, []).
Proof.
  intros Hs Hl. by rewrite (DeleteSimpleDBDomain_run _ _ _ Hs), Hl.
Qed.

Lemma DeleteSimpleDBDomain_listing_error_witness :
  aws.DeleteSimpleDBDomain (K := sample.sdk_broken) "SIMIAN_ARMY" "eu-west-1"
  = Some (Some "RequestError: timeout", []).
Proof.
  apply (DeleteSimpleDBDomain_listing_error (H := sample.sdk_broken) "SIMIAN_ARMY"
           "eu-west-1" sample.simpledb_broken); reflexivity.
Defined.

(** ** The listing of auto scaling groups *)

Section groups_facts.
Context `{aws.AutoScalingSDK}.

Lemma count_in_service (ins : list aws.autoscaling.Instance) (n : Z) :
  foldl (λ inService i,
           if bool_decide (aws.StringValue (aws.autoscaling.LifecycleState i)
                           = aws.LifecycleStateInService)
           then inService + 1 else inService) n ins
  = n + Z.of_nat (length (filter (λ i, aws.StringValue (aws.autoscaling.LifecycleState i)
                                       = aws.LifecycleStateInService) ins)).
Proof.
  revert n. induction ins as [|i ins IH]; intros n; cbn [foldl].
  - cbn. lia.
  - rewrite IH, filter_cons. case_bool_decide as Hi.
    + rewrite decide_True by exact Hi. cbn [length]. lia.
    + rewrite decide_False by exact Hi. lia.
Qed.

Lemma scan_groups (gs : list aws.autoscaling.Group) (acc : list aws.AutoScalingGroup.t) :
  foldl (λ groups g,
           let inService :=
             foldl (λ inService i,
                      if bool_decide
                           (aws.StringValue (aws.autoscaling.LifecycleState i)
                            = aws.LifecycleStateInService)
                      then inService + 1 else inService)
                   0 (aws.autoscaling.Instances g) in
           groups ++
           [aws.AutoScalingGroup.mk
              (aws.StringValue (aws.autoscaling.AutoScalingGroupName g))
              inService
              (aws.int_of_int64 (aws.Int64Value (aws.autoscaling.DesiredCapacity g)))
              (aws.int_of_int64 (aws.Int64Value (aws.autoscaling.MinSize g)))
              (aws.int_of_int64 (aws.Int64Value (aws.autoscaling.MaxSize g)))])
        acc gs
  = acc ++ map aws.summary gs.
Proof.
  revert acc. induction gs as [|g gs IH]; intros acc; cbn [foldl map].
  - by rewrite app_nil_r.
  - rewrite IH. cbv zeta. rewrite count_in_service. rewrite <- app_assoc.
    reflexivity.
Qed.

Lemma eachPageOf_groups ps err (acc : list aws.AutoScalingGroup.t) :
  aws.eachPageOf ps err
    (λ out last groups,
       (foldl (λ groups g,
                 let inService :=
                   foldl (λ inService i,
                            if bool_decide
                                 (aws.StringValue (aws.autoscaling.LifecycleState i)
                                  = aws.LifecycleStateInService)
                            then inService + 1 else inService)
                         0 (aws.autoscaling.Instances g) in
                 groups ++
                 [aws.AutoScalingGroup.mk
                    (aws.StringValue (aws.autoscaling.AutoScalingGroupName g))
                    inService
                    (aws.int_of_int64 (aws.Int64Value (aws.autoscaling.DesiredCapacity g)))
                    (aws.int_of_int64 (aws.Int64Value (aws.autoscaling.MinSize g)))
                    (aws.int_of_int64 (aws.Int64Value (aws.autoscaling.MaxSize g)))])
              groups (aws.autoscaling.AutoScalingGroups out),
        negb last))
    acc
  = (acc ++ map aws.summary (concat (map aws.autoscaling.AutoScalingGroups ps)), err).
Proof.
  revert acc. induction ps as [|p ps IH]; intros acc.
  - cbn [aws.eachPageOf map concat]. by rewrite app_nil_r.
  - cbn [aws.eachPageOf]. rewrite scan_groups.
    cbn [map concat]. rewrite map_app, app_assoc.
    destruct (bool_decide (ps = []) && bool_decide (err = None)) eqn:Hlast;
      cbn [negb].
    + apply andb_true_iff in Hlast as [Hps Herr].
      apply bool_decide_eq_true in Hps, Herr. subst ps err.
      cbn [map concat]. by rewrite app_nil_r.
    + apply IH.
Qed.

Lemma AutoScalingGroups_run region svc :
  aws.autoscaling_NewSession region = Ok svc →
  aws.AutoScalingGroups region =
    match aws.autoscaling.describeErr svc with
    | Some e => Some (Err e)
    | None => Some (Ok (map aws.summary (aws.described svc)))
    end.
Proof.
  intros Hs. unfold aws.AutoScalingGroups. rewrite Hs.
  unfold aws.DescribeAutoScalingGroupsPages. rewrite eachPageOf_groups.
  reflexivity.
Qed.

Lemma summary_bounds (g : aws.autoscaling.Group) :
  0 <= aws.AutoScalingGroup.InstancesInService (aws.summary g)
    <= Z.of_nat (length (aws.autoscaling.Instances g)).
Proof.
  unfold aws.summary. cbn [aws.AutoScalingGroup.InstancesInService].
  pose proof (length_filter (λ i, aws.StringValue (aws.autoscaling.LifecycleState i)
                                  = aws.LifecycleStateInService)
                (aws.autoscaling.Instances g)).
  lia.
Qed.

End groups_facts.

(** X19: when the listing goes through, AutoScalingGroups returns one
    entry per group of the listing, over all pages and in their order,
    with the group's name, the number of its instances whose lifecycle
    state is InService (between zero and the number of its instances) and
    its desired, minimal and maximal sizes, a nil number counting as
    zero. *)
Theorem AutoScalingGroups_lists_all `{aws.AutoScalingSDK} region svc :
  aws.autoscaling_NewSession region = Ok svc →
  aws.autoscaling.describeErr svc = None →
  ∃ groups,
    aws.AutoScalingGroups region = Some (Ok groups)
    ∧ length groups = length (aws.described svc)
    ∧ map aws.AutoScalingGroup.Name groups
      = map (λ g, aws.StringValue (aws.autoscaling.AutoScalingGroupName g))
          (aws.described svc)
    ∧ Forall2 (λ g a,
                 aws.AutoScalingGroup.InstancesInService a
                 = Z.of_nat (length (filter
                     (λ i, aws.StringValue (aws.autoscaling.LifecycleState i)
                           = aws.LifecycleStateInService)
                     (aws.autoscaling.Instances g)))
                 ∧ 0 <= aws.AutoScalingGroup.InstancesInService a
                     <= Z.of_nat (length (aws.autoscaling.Instances g))
                 ∧ aws.AutoScalingGroup.DesiredCapacity a
                   = aws.int_of_int64 (aws.Int64Value (aws.autoscaling.DesiredCapacity g))
                 ∧ aws.AutoScalingGroup.MinSize a
                   = aws.int_of_int64 (aws.Int64Value (aws.autoscaling.MinSize g))
                 ∧ aws.AutoScalingGroup.MaxSize a
                   = aws.int_of_int64 (aws.Int64Value (aws.autoscaling.MaxSize g)))
              (aws.described svc) groups.
Proof.
  intros Hs He. rewrite (AutoScalingGroups_run _ _ Hs), He.
  eexists. split; [reflexivity|]. split; [apply length_map|].
  split.
  - rewrite map_map. reflexivity.
  - apply Forall2_fmap_r, Forall_Forall2_diag, Forall_forall. intros g _.
    split; [reflexivity|]. split; [apply summary_bounds|]. done.
Qed.

Lemma AutoScalingGroups_lists_all_witness :
  ∃ groups,
    aws.AutoScalingGroups (G := sample.scaling_sdk) "eu-west-1" = Some (Ok groups)
    ∧ groups = [aws.AutoScalingGroup.mk "web" 2 3 1 5; aws.AutoScalingGroup.mk "db" 0 1 0 1].
Proof.
  destruct (AutoScalingGroups_lists_all (H := sample.scaling_sdk) "eu-west-1"
              sample.scaling) as (groups & Hrun & _); [reflexivity..|].
  exists groups. split; [exact Hrun|].
  assert (Hc : aws.AutoScalingGroups (G := sample.scaling_sdk) "eu-west-1"
               = Some (Ok [aws.AutoScalingGroup.mk "web" 2 3 1 5;
                           aws.AutoScalingGroup.mk "db" 0 1 0 1]))
    by (vm_compute; reflexivity).
  rewrite Hc in Hrun. by injection Hrun as <-.
Defined.

(** X20: when the listing fails, AutoScalingGroups returns the error
    and no groups, whatever the pages before the failure held. *)
Theorem AutoScalingGroups_listing_error `{aws.AutoScalingSDK} region svc e :
  aws.autoscaling_NewSession region = Ok svc →
  aws.autoscaling.describeErr svc = Some e →
  aws.AutoScalingGroups region = Some (Err e).
Proof.
  intros Hs He. by rewrite (AutoScalingGroups_run _ _ Hs), He.
Qed.

Lemma AutoScalingGroups_listing_error_witness :
  aws.AutoScalingGroups (G := sample.scaling_sdk_broken) "eu-west-1"
  = Some (Err "RequestError: timeout").
Proof.
  apply (AutoScalingGroups_listing_error (H := sample.scaling_sdk_broken) "eu-west-1"
           sample.scaling_broken); reflexivity.
Defined.
